(** * Vocabfinder: a shallow embedding of [vocabfinder.py]

    The script compares the vocabulary of two groups of Bible books read
    from a tab-separated token file.  Python strings are sequences of
    Unicode code points, so a [str] is a list of code points here; sets
    are [gset]s, the book table is a [gmap], and the effects of the
    script (text written to standard output, [sys.exit], an uncaught
    exception) are threaded through a small monad. *)

From Stdlib Require Import ZArith NArith List String Ascii DecimalString Lia.
From stdpp Require Import base option list sorting gmap.

Local Open Scope N_scope.

(** ** Python strings *)

Abbreviation str := (list N).

(** An ASCII literal as a sequence of code points. *)
Definition py (s : string) : str := List.map N_of_ascii (list_ascii_of_string s).

Module PyStr.

Definition TAB : N := 9.
Definition LF : N := 10.
Definition SPACE : N := 32.
Definition DQUOTE : N := 34.

(** [str.isspace] on one code point: the code points Python treats as
    white space (U+0009..U+000D, U+001C..U+0020, U+0085, U+00A0, U+1680,
    U+2000..U+200A, U+2028, U+2029, U+202F, U+205F, U+3000). *)
Definition isspace (c : N) : bool :=
  ((9 <=? c) && (c <=? 13)) || ((28 <=? c) && (c <=? 32))
  || (c =? 133) || (c =? 160) || (c =? 5760)
  || ((8192 <=? c) && (c <=? 8202))
  || (c =? 8232) || (c =? 8233) || (c =? 8239) || (c =? 8287)
  || (c =? 12288).

(** [s.lstrip()], [s.rstrip()], [s.strip()]. *)
Fixpoint lstrip (s : str) : str :=
  match s with
  | [] => []
  | c :: s' => if isspace c then lstrip s' else s
  end.

Definition rstrip (s : str) : str := rev (lstrip (rev s)).

Definition strip (s : str) : str := rstrip (lstrip s).

(** Cut [s] at every code point satisfying [is_sep]; the result always
    has one field more than [s] has separators. *)
Fixpoint split_by (is_sep : N -> bool) (s : str) : list str :=
  match s with
  | [] => [[]]
  | c :: s' =>
      if is_sep c then [] :: split_by is_sep s'
      else match split_by is_sep s' with
           | f :: fs => (c :: f) :: fs
           | [] => [[c]]
           end
  end.

(** [s.split(sep)] for a one-character separator. *)
Definition split (sep : N) (s : str) : list str := split_by (N.eqb sep) s.

Definition nonempty (s : str) : bool :=
  match s with [] => false | _ :: _ => true end.

(** [s.split()]: runs of white space separate, empty pieces are dropped. *)
Definition split_ws (s : str) : list str :=
  List.filter nonempty (split_by isspace s).

(** [sep.join(l)]. *)
Fixpoint join (sep : str) (l : list str) : str :=
  match l with
  | [] => []
  | x :: l' =>
      match l' with
      | [] => x
      | _ :: _ => x ++ sep ++ join sep l'
      end
  end.

(** [s.startswith(t)]. *)
Fixpoint startswith (s t : str) : bool :=
  match t, s with
  | [], _ => true
  | _ :: _, [] => false
  | a :: t', b :: s' => (a =? b) && startswith s' t'
  end.

(** [t in s] on strings: [t] occurs in [s] as a contiguous substring. *)
Fixpoint contains (s t : str) : bool :=
  startswith s t
  || match s with
     | [] => false
     | _ :: s' => contains s' t
     end.

(** [s * n] for a one-character string. *)
Definition times (c : N) (n : nat) : str := repeat c n.

(** The format [f"{w:<n}"]: pad on the right with spaces up to [n]
    code points; a longer string is left as it is. *)
Definition ljust (w : str) (n : nat) : str :=
  w ++ repeat SPACE (n - length w).

(** [str(n)] for a non-negative integer. *)
Definition of_nat (n : nat) : str := py (NilZero.string_of_uint (Nat.to_uint n)).

(** [a <= b] on strings: lexicographic on code points. *)
Fixpoint leb (a b : str) : bool :=
  match a, b with
  | [], _ => true
  | _ :: _, [] => false
  | x :: a', y :: b' => (x <? y) || ((x =? y) && leb a' b')
  end.

Definition le (a b : str) : Prop := leb a b = true.

(** Lower-casing of the ASCII letters; it agrees with [str.lower] on
    ASCII text and is used to run the program on examples. *)
Definition ascii_lower (s : str) : str :=
  List.map (fun c => if (65 <=? c) && (c <=? 90) then c + 32 else c) s.

End PyStr.

Import PyStr.

(** ** The book table *)

Definition USFM_TO_BOOK_NUM : gmap str str :=
  list_to_map (List.map (fun kv => (py (fst kv), py (snd kv)))
    [ ("GEN", "01"); ("EXO", "02"); ("LEV", "03"); ("NUM", "04"); ("DEU", "05");
      ("JOS", "06"); ("JDG", "07"); ("RUT", "08"); ("1SA", "09"); ("2SA", "10");
      ("1KI", "11"); ("2KI", "12"); ("1CH", "13"); ("2CH", "14"); ("EZR", "15");
      ("NEH", "16"); ("EST", "17"); ("JOB", "18"); ("PSA", "19"); ("PRO", "20");
      ("ECC", "21"); ("SNG", "22"); ("ISA", "23"); ("JER", "24"); ("LAM", "25");
      ("EZK", "26"); ("DAN", "27"); ("HOS", "28"); ("JOL", "29"); ("AMO", "30");
      ("OBA", "31"); ("JON", "32"); ("MIC", "33"); ("NAM", "34"); ("HAB", "35");
      ("ZEP", "36"); ("HAG", "37"); ("ZEC", "38"); ("MAL", "39");
      ("MAT", "40"); ("MRK", "41"); ("LUK", "42"); ("JHN", "43"); ("ACT", "44");
      ("ROM", "45"); ("1CO", "46"); ("2CO", "47"); ("GAL", "48"); ("EPH", "49");
      ("PHP", "50"); ("COL", "51"); ("1TH", "52"); ("2TH", "53"); ("1TI", "54");
      ("2TI", "55"); ("TIT", "56"); ("PHM", "57"); ("HEB", "58"); ("JAS", "59");
      ("1PE", "60"); ("2PE", "61"); ("1JN", "62"); ("2JN", "63"); ("3JN", "64");
      ("JUD", "65"); ("REV", "66") ]%string).

(** ** Effects: standard output, [sys.exit], uncaught exceptions *)

Inductive exn : Type :=
| KeyError (key : str).

Inductive outcome (A : Type) : Type :=
| Return (a : A)
| SysExit (code : Z)
| Uncaught (e : exn).

Arguments Return {A} a.
Arguments SysExit {A} code.
Arguments Uncaught {A} e.

(** A computation takes the text written to standard output so far and
    returns the text written afterwards with its outcome. *)
Definition Py (A : Type) : Type := str -> str * outcome A.

Definition ret {A} (a : A) : Py A := fun out => (out, Return a).

Definition bind {A B} (m : Py A) (k : A -> Py B) : Py B :=
  fun out =>
    match m out with
    | (out', Return a) => k a out'
    | (out', SysExit c) => (out', SysExit c)
    | (out', Uncaught e) => (out', Uncaught e)
    end.

Declare Scope py_scope.
Delimit Scope py_scope with py.
Notation "x <- m ;; k" := (bind m (fun x => k))
  (at level 100, m at next level, k at level 200, right associativity) : py_scope.
Notation "m ;;; k" := (bind m (fun _ => k))
  (at level 100, k at level 200, right associativity) : py_scope.

(** [print(s)] and [print(s, end="")]. *)
Definition print (s : str) : Py unit := fun out => (out ++ s ++ [LF], Return tt).
Definition print_noend (s : str) : Py unit := fun out => (out ++ s, Return tt).

Definition sys_exit {A} (code : Z) : Py A := fun out => (out, SysExit code).
Definition raise {A} (e : exn) : Py A := fun out => (out, Uncaught e).

(** The exit status the operating system sees. *)
Definition exit_status {A} (o : outcome A) : Z :=
  match o with
  | Return _ => 0%Z
  | SysExit c => c
  | Uncaught _ => 1%Z
  end.

(** ** The corpus file, as the loader sees it *)

(** What opening and reading a file does: the file is missing
    ([FileNotFoundError]), reading fails with some other exception whose
    text is [e], or iterating the file yields the lines [ls] (each one
    with its line terminator, the last one possibly without). *)
Inductive file_state : Type :=
| Missing
| Unreadable (e : str)
| Lines (ls : list str).

(** The string the punctuation test searches: the two adjacent literals of
    the source, which Python concatenates. *)
Definition PUNCTUATION : str :=
  [0xFF0C; 0x3002; 0xFF1B; 0xFF1A; 0xFF1F; 0xFF01; 0x22; 0x22]
  ++ [0xFF08; 0xFF09; 0x3010; 0x3011; 0x300A; 0x300B].

(** The punctuation test [t in '...']. *)
Definition is_punctuation (t : str) : bool := contains PUNCTUATION t.

#[global] Instance le_dec (a b : str) : Decision (le a b).
Proof. unfold le. apply _. Defined.

(** [sorted(s)] for a set of strings. *)
Definition sorted (s : gset str) : list str := merge_sort le (elements s).

(** [enumerate(l, start)]. *)
Definition enumerate {A} (l : list A) (start : nat) : list (nat * A) :=
  combine (seq start (length l)) l.

(** A [for] loop whose body has no [break]. *)
Fixpoint for_each {A} (l : list A) (body : A -> Py unit) : Py unit :=
  match l with
  | [] => ret tt
  | x :: l' => (body x ;;; for_each l' body)%py
  end.

Definition CORPUS : str := py "token_OCCB-simplified.tsv".

Section Program.

(** [str.lower] is Python's; nothing below depends on what it does. *)
Variable lower : str -> str.

(** The file system: what reading the file of a given name does. *)
Variable fs : str -> file_state.

Definition parse_arguments (argv : list str) : Py (list str * list str) :=
  if negb (length argv =? 3)%nat then
    (print (py "Usage: python vocabfind.py " ++ [DQUOTE] ++ py "BOOK1 BOOK2 ..."
            ++ [DQUOTE; SPACE; DQUOTE] ++ py "BOOK3 BOOK4 ..." ++ [DQUOTE]) ;;;
     print (py "Example: python vocabfind.py " ++ [DQUOTE] ++ py "MAT MRK LUK ACT ROM"
            ++ [DQUOTE; SPACE; DQUOTE] ++ py "GAL PHP" ++ [DQUOTE]) ;;;
     sys_exit 1)%py
  else
    let first_books := split_ws (nth 1 argv []) in
    let second_books := split_ws (nth 2 argv []) in
    ret (first_books, second_books).

(** [book not in USFM_TO_BOOK_NUM]. *)
Definition unrecognized (book : str) : bool :=
  match USFM_TO_BOOK_NUM !! book with
  | Some _ => false
  | None => true
  end.

Definition validate_books (books : list str) : Py unit :=
  let invalid_books := List.filter unrecognized books in
  if negb (length invalid_books =? 0)%nat then
    (print (py "Error: Unrecognized book abbreviations: "
            ++ join (py ", ") invalid_books) ;;;
     print (py "Valid abbreviations include: GEN, EXO, MAT, MRK, ROM, etc.") ;;;
     sys_exit 1)%py
  else ret tt.

(** The subscript [USFM_TO_BOOK_NUM[book]] raises [KeyError] on a
    missing key. *)
Fixpoint get_book_prefixes (books : list str) : Py (list str) :=
  match books with
  | [] => ret []
  | book :: rest =>
      match USFM_TO_BOOK_NUM !! book with
      | None => raise (KeyError book)
      | Some num => (nums <- get_book_prefixes rest ;; ret (num :: nums))%py
      end
  end.

(** One turn of the loop over the data lines of [load_vocabulary]. *)
Definition loop_body (book_prefixes : list str) (vocabulary : gset str)
    (line : str) : gset str :=
  let parts := split TAB (strip line) in
  if (length parts <? 8)%nat then vocabulary
  else
    let id_field := nth 0 parts [] in
    let text := nth 2 parts [] in
    let exclude := if (4 <? length parts)%nat then nth 4 parts [] else [] in
    if bool_decide (lower (strip exclude) = py "y") then vocabulary
    else if (2 <=? length id_field)%nat then
      let book_num := take 2 id_field in
      if bool_decide (book_num ∈ book_prefixes) then
        if nonempty (strip text) && negb (is_punctuation (strip text))
        then {[ strip text ]} ∪ vocabulary
        else vocabulary
      else vocabulary
    else vocabulary.

(** [next(file)] on a file without lines raises [StopIteration], whose
    text is empty; [except Exception] catches it. *)
Definition load_vocabulary (filename : str) (book_prefixes : list str)
    : Py (gset str) :=
  match fs filename with
  | Missing =>
      (print (py "Error: File '" ++ filename ++ py "' not found.") ;;;
       print (py "Make sure 'token_OCCB-simplified.tsv' is in the current directory.") ;;;
       sys_exit 1)%py
  | Unreadable e =>
      (print (py "Error reading file: " ++ e) ;;; sys_exit 1)%py
  | Lines [] =>
      (print (py "Error reading file: " ++ []) ;;; sys_exit 1)%py
  | Lines (_header :: data) =>
      ret (foldl (loop_body book_prefixes) ∅ data)
  end.

(** [second_vocab - first_vocab]. *)
Definition difference (second_vocab first_vocab : gset str) : gset str :=
  second_vocab ∖ first_vocab.

(** The body of the loop that prints the words in columns. *)
Definition print_word (iw : nat * str) : Py unit :=
  let '(i, word) := iw in
  (print_noend (ljust word 10) ;;;
   if (i mod 6 =? 0)%nat then print [] else ret tt)%py.

(** The last part of [main]: the statistics and the word list. *)
Definition display_results (second_books : list str)
    (first_vocab second_vocab unique_vocab : gset str) : Py unit :=
  (print ([LF] ++ py "Vocabulary Statistics:") ;;;
   print (py "Words in first set: " ++ of_nat (size first_vocab)) ;;;
   print (py "Words in second set: " ++ of_nat (size second_vocab)) ;;;
   print (py "Unique words in second set: " ++ of_nat (size unique_vocab)) ;;;
   if bool_decide (unique_vocab ≠ ∅) then
     print ([LF] ++ py "Unique vocabulary found in " ++ join [SPACE] second_books
            ++ py ":") ;;;
     print (times 45 40) ;;;
     let sorted_vocab := sorted unique_vocab in
     for_each (enumerate sorted_vocab 1) print_word ;;;
     (if negb (length sorted_vocab mod 6 =? 0)%nat then print [] else ret tt) ;;;
     print ([LF] ++ py "Total unique words: " ++ of_nat (size unique_vocab))
   else
     print ([LF] ++ py "No unique vocabulary found in " ++ join [SPACE] second_books
            ++ py ".") ;;;
     print (py "All words in the second set also appear in the first set."))%py.

Definition main (argv : list str) : Py unit :=
  (print (py "Bible Vocabulary Finder") ;;;
   print (times 61 50) ;;;
   books <- parse_arguments argv ;;
   let '(first_books, second_books) := books in
   validate_books (first_books ++ second_books) ;;;
   first_prefixes <- get_book_prefixes first_books ;;
   second_prefixes <- get_book_prefixes second_books ;;
   print (py "First set of books: " ++ join [SPACE] first_books) ;;;
   print (py "Second set of books: " ++ join [SPACE] second_books) ;;;
   print [] ;;;
   print (py "Loading vocabulary from first set...") ;;;
   first_vocab <- load_vocabulary CORPUS first_prefixes ;;
   print (py "Loading vocabulary from second set...") ;;;
   second_vocab <- load_vocabulary CORPUS second_prefixes ;;
   let unique_vocab := difference second_vocab first_vocab in
   display_results second_books first_vocab second_vocab unique_vocab)%py.

End Program.

(** ** Definitions used to state the results *)

(** The text of one row of words: each word in its column. *)
Definition row_text (r : list str) : str :=
  concat (List.map (fun w => ljust w 10) r).

(** The text one turn of the loop writes. *)
Definition word_text (iw : nat * str) : str :=
  ljust (snd iw) 10 ++ (if (fst iw mod 6 =? 0)%nat then [LF] else []).

(** A row of the corpus file: its fields joined by tabs, and a newline. *)
Definition tsv_row (fields : list str) : str := join [TAB] fields ++ [LF].

(** The corpus of the sample scenario: a header and three tokens. *)
Definition sample_corpus : list str :=
  [ tsv_row (List.map py ["id"; "ref"; "text"; "lemma"; "exclude"; "f5"; "f6"; "f7"]%string);
    tsv_row (List.map py ["40001001"; "a"; "the"; "b"; "n"; "c"; "d"; "e"]%string);
    tsv_row (List.map py ["40001002"; "a"; "kingdom"; "b"; "n"; "c"; "d"; "e"]%string);
    tsv_row (List.map py ["01001001"; "a"; "the"; "b"; "n"; "c"; "d"; "e"]%string) ].

Definition sample_fs (filename : str) : file_state :=
  if bool_decide (filename = CORPUS) then Lines sample_corpus else Missing.

(** The table's entries for the abbreviations of a list that are keys. *)
Definition book_nums (books : list str) : list str :=
  omap (fun book => USFM_TO_BOOK_NUM !! book) books.

(** A decimal digit. *)
Definition isdigit (c : N) : bool := (48 <=? c) && (c <=? 57).

(** What [main] writes before it loads the first vocabulary. *)
Definition run_header (first_books second_books : list str) : str :=
  py "Bible Vocabulary Finder" ++ [LF] ++ times 61 50 ++ [LF]
  ++ py "First set of books: " ++ join [SPACE] first_books ++ [LF]
  ++ py "Second set of books: " ++ join [SPACE] second_books ++ [LF]
  ++ [LF]
  ++ py "Loading vocabulary from first set..." ++ [LF].

(** The statistics block of the report. *)
Definition statistics_text (first_vocab second_vocab unique_vocab : gset str) : str :=
  [LF] ++ py "Vocabulary Statistics:" ++ [LF]
  ++ py "Words in first set: " ++ of_nat (size first_vocab) ++ [LF]
  ++ py "Words in second set: " ++ of_nat (size second_vocab) ++ [LF]
  ++ py "Unique words in second set: " ++ of_nat (size unique_vocab) ++ [LF].

(** The two lines written for an empty difference. *)
Definition no_unique_text (second_books : list str) : str :=
  [LF] ++ py "No unique vocabulary found in " ++ join [SPACE] second_books
  ++ py "." ++ [LF]
  ++ py "All words in the second set also appear in the first set." ++ [LF].

(** The heading, the words and the total written for a difference that
    is not empty. *)
Definition unique_text (second_books : list str) (unique_vocab : gset str) : str :=
  [LF] ++ py "Unique vocabulary found in " ++ join [SPACE] second_books
  ++ py ":" ++ [LF]
  ++ times 45 40 ++ [LF]
  ++ concat (List.map word_text (enumerate (sorted unique_vocab) 1))
  ++ (if negb (length (sorted unique_vocab) mod 6 =? 0)%nat then [LF] else [])
  ++ [LF] ++ py "Total unique words: " ++ of_nat (size unique_vocab) ++ [LF].

(** ** Facts about the string operations *)

Section StringFacts.

Lemma lstrip_head (s : str) :
  match lstrip s with
  | [] => True
  | c :: _ => isspace c = false
  end.
Proof.
  induction s as [|c s IH]; simpl; [exact I|].
  destruct (isspace c) eqn:Hc; [exact IH|exact Hc].
Qed.

Lemma lstrip_fixed (s : str) :
  match s with [] => True | c :: _ => isspace c = false end ->
  lstrip s = s.
Proof. destruct s as [|c s]; simpl; [reflexivity|]. intros ->. reflexivity. Qed.

Lemma lstrip_idem (s : str) : lstrip (lstrip s) = lstrip s.
Proof. apply lstrip_fixed, lstrip_head. Qed.

Lemma lstrip_suffix (s : str) :
  exists ws, s = ws ++ lstrip s /\ Forall (fun c => isspace c = true) ws.
Proof.
  induction s as [|c s (ws & Hs & Hws)]; simpl.
  - exists []. split; [reflexivity|constructor].
  - destruct (isspace c) eqn:Hc.
    + exists (c :: ws). split; [simpl; congruence|constructor; assumption].
    + exists []. split; [reflexivity|constructor].
Qed.




Lemma rstrip_prefix (s : str) :
  exists ws, s = rstrip s ++ ws /\ Forall (fun c => isspace c = true) ws.
Proof.
  unfold rstrip. destruct (lstrip_suffix (rev s)) as (ws & Hs & Hws).
  exists (rev ws). split.
  - rewrite <- rev_app_distr, <- Hs, rev_involutive. reflexivity.
  - apply Forall_rev. exact Hws.
Qed.

Lemma rstrip_idem (s : str) : rstrip (rstrip s) = rstrip s.
Proof. unfold rstrip. rewrite rev_involutive, lstrip_idem. reflexivity. Qed.


Lemma rstrip_nil : rstrip [] = [].
Proof. reflexivity. Qed.

(** A stripped string does not start with white space. *)
Lemma strip_head (s : str) :
  match strip s with
  | [] => True
  | c :: _ => isspace c = false
  end.
Proof.
  unfold strip. pose proof (lstrip_head s) as Hh.
  destruct (rstrip_prefix (lstrip s)) as (ws & Hs & _).
  destruct (rstrip (lstrip s)) as [|c r]; [exact I|].
  rewrite Hs in Hh. exact Hh.
Qed.

Lemma strip_idem (s : str) : strip (strip s) = strip s.
Proof.
  unfold strip at 1. rewrite (lstrip_fixed (strip s) (strip_head s)).
  unfold strip. apply rstrip_idem.
Qed.


(** Stripping removes code points at both ends only. *)
Lemma strip_infix (s : str) : exists pre suf, s = pre ++ strip s ++ suf.
Proof.
  destruct (lstrip_suffix s) as (pre & Hs & _).
  destruct (rstrip_prefix (lstrip s)) as (suf & Hl & _).
  exists pre, suf. unfold strip. rewrite <- Hl. exact Hs.
Qed.

Lemma startswith_spec (s t : str) :
  startswith s t = true <-> exists suf, s = t ++ suf.
Proof.
  revert s. induction t as [|a t IH]; intros s.
  - destruct s; simpl; split; eauto.
  - destruct s as [|b s].
    + simpl. split; [discriminate|]. intros (suf & Hs). discriminate.
    + change (startswith (b :: s) (a :: t)) with ((a =? b) && startswith s t).
      rewrite andb_true_iff, N.eqb_eq, IH. split.
      * intros (-> & suf & ->). eauto.
      * intros (suf & Hs). injection Hs as -> ->. eauto.
Qed.

(** [t in s] holds exactly when [t] is a contiguous part of [s]. *)
Lemma contains_spec (s t : str) :
  contains s t = true <-> exists pre suf, s = pre ++ t ++ suf.
Proof.
  induction s as [|b s IH].
  - change (contains [] t) with (startswith [] t || false).
    rewrite orb_false_r, startswith_spec. split.
    + intros (suf & Hs). exists [], suf. exact Hs.
    + intros (pre & suf & Hs). destruct pre; [eauto|discriminate].
  - change (contains (b :: s) t) with (startswith (b :: s) t || contains s t).
    rewrite orb_true_iff, startswith_spec, IH. split.
    + intros [(suf & Hs)|(pre & suf & Hs)].
      * exists [], suf. exact Hs.
      * exists (b :: pre), suf. simpl. congruence.
    + intros (pre & suf & Hs). destruct pre as [|b' pre].
      * left. eauto.
      * right. injection Hs as _ Hs. eauto.
Qed.

Lemma join_cons (sep x : str) (l : list str) :
  l <> [] -> join sep (x :: l) = x ++ sep ++ join sep l.
Proof. destruct l; [congruence|reflexivity]. Qed.

(** Every joined string occurs in the result of [join]. *)
Lemma join_contains (sep b : str) (l : list str) :
  b ∈ l -> contains (join sep l) b = true.
Proof.
  intros Hb. apply contains_spec. induction Hb as [b l|b x l Hb (pre & suf & IH)].
  - destruct l as [|y l].
    + exists [], []. simpl. rewrite app_nil_r. reflexivity.
    + exists [], (sep ++ join sep (y :: l)). reflexivity.
  - destruct l as [|y l]; [inversion Hb|].
    rewrite join_cons by discriminate. rewrite IH.
    exists (x ++ sep ++ pre), suf. rewrite <- !app_assoc. reflexivity.
Qed.

End StringFacts.

Section SplitFacts.

Variable is_sep : N -> bool.


Lemma split_by_field (f : str) :
  Forall (fun c => is_sep c = false) f -> split_by is_sep f = [f].
Proof.
  induction 1 as [|c f Hc _ IH]; simpl; [reflexivity|].
  rewrite Hc, IH. reflexivity.
Qed.

Lemma split_by_app_sep (f rest : str) (sep : N) :
  Forall (fun c => is_sep c = false) f -> is_sep sep = true ->
  split_by is_sep (f ++ sep :: rest) = f :: split_by is_sep rest.
Proof.
  intros Hf Hsep. induction Hf as [|c f Hc _ IH]; simpl.
  - rewrite Hsep. reflexivity.
  - rewrite Hc, IH. reflexivity.
Qed.

(** Splitting undoes joining when no field holds a separator. *)
Lemma split_by_join (sep : N) (l : list str) :
  is_sep sep = true -> l <> [] ->
  Forall (Forall (fun c => is_sep c = false)) l ->
  split_by is_sep (join [sep] l) = l.
Proof.
  intros Hsep Hl Hall. induction Hall as [|f l Hf Hall IH]; [congruence|].
  destruct l as [|g l].
  - simpl. apply split_by_field, Hf.
  - rewrite join_cons by discriminate.
    change ([sep] ++ join [sep] (g :: l)) with (sep :: join [sep] (g :: l)).
    rewrite (split_by_app_sep _ _ _ Hf Hsep). f_equal. apply IH. discriminate.
Qed.


End SplitFacts.


(** ** The vocabulary loader *)

Section Loader.

Context (lower : str -> str) (fs : str -> file_state).

(** A line either leaves the vocabulary as it is or adds the stripped
    text of its third field, which is then non-empty. *)
Lemma loop_body_cases (book_prefixes : list str) (vocabulary : gset str) (line : str) :
  loop_body lower book_prefixes vocabulary line = vocabulary
  \/ exists w, loop_body lower book_prefixes vocabulary line = {[ w ]} ∪ vocabulary
               /\ w = strip (nth 2 (split TAB (strip line)) [])
               /\ nonempty w = true.
Proof.
  unfold loop_body. cbv zeta.
  destruct (length (split TAB (strip line)) <? 8)%nat; [left; reflexivity|].
  destruct (bool_decide _); [left; reflexivity|].
  destruct (2 <=? _)%nat; [|left; reflexivity].
  destruct (bool_decide _); [|left; reflexivity].
  destruct (nonempty _) eqn:Hne; [|left; reflexivity].
  destruct (negb _); [|left; reflexivity].
  right. eexists. split; [reflexivity|]. split; [reflexivity|exact Hne].
Qed.

Lemma foldl_loop_body_invariant (Q : str -> Prop) (book_prefixes : list str)
    (data : list str) (vocabulary : gset str) :
  (forall t, nonempty (strip t) = true -> Q (strip t)) ->
  (forall w, w ∈ vocabulary -> Q w) ->
  forall w, w ∈ foldl (loop_body lower book_prefixes) vocabulary data -> Q w.
Proof.
  intros HQ. revert vocabulary.
  induction data as [|line data IH]; intros vocabulary HV; simpl; [exact HV|].
  apply IH. intros w Hw.
  destruct (loop_body_cases book_prefixes vocabulary line) as [->|(t & -> & -> & Hne)] in Hw.
  - apply HV, Hw.
  - apply elem_of_union in Hw as [Hw|Hw]; [|apply HV, Hw].
    apply elem_of_singleton in Hw as ->. apply HQ, Hne.
Qed.

(** What [load_vocabulary] does on a file that has a first line. *)
Lemma load_vocabulary_lines (filename : str) (book_prefixes : list str)
    (header : str) (data : list str) (out : str) :
  fs filename = Lines (header :: data) ->
  load_vocabulary lower fs filename book_prefixes out
  = (out, Return (foldl (loop_body lower book_prefixes) ∅ data)).
Proof. intros Hfs. unfold load_vocabulary. rewrite Hfs. reflexivity. Qed.

Lemma loop_body_union (book_prefixes : list str) (vocabulary : gset str) (line : str) :
  loop_body lower book_prefixes vocabulary line
  = loop_body lower book_prefixes ∅ line ∪ vocabulary.
Proof.
  unfold loop_body. cbv zeta.
  repeat match goal with
         | |- context [if ?b then _ else _] => destruct b
         end;
    rewrite ?union_empty_r_L, ?union_empty_l_L; reflexivity.
Qed.

(** The returned set holds exactly what the data lines add. *)
Lemma load_vocabulary_elem (filename : str) (book_prefixes : list str)
    (header : str) (data : list str) (out : str) :
  fs filename = Lines (header :: data) ->
  exists vocabulary,
    load_vocabulary lower fs filename book_prefixes out = (out, Return vocabulary)
    /\ forall w, w ∈ vocabulary <->
                 exists line, line ∈ data /\ w ∈ loop_body lower book_prefixes ∅ line.
Proof.
  intros Hfs. rewrite (load_vocabulary_lines _ _ _ _ _ Hfs).
  eexists. split; [reflexivity|].
  assert (forall (V : gset str) w,
             w ∈ foldl (loop_body lower book_prefixes) V data <->
             w ∈ V \/ exists line, line ∈ data
                                   /\ w ∈ loop_body lower book_prefixes ∅ line) as Hfold.
  { clear Hfs. induction data as [|l data' IH]; intros V w.
    - simpl. split; [tauto|]. intros [H|(line & Hin & _)]; [exact H|inversion Hin].
    - cbn [foldl]. rewrite IH, (loop_body_union _ V), elem_of_union. split.
      + intros [[H|H]|(line & Hin & H)].
        * right. exists l. split; [apply list_elem_of_here|exact H].
        * left. exact H.
        * right. exists line. split; [apply list_elem_of_further, Hin|exact H].
      + intros [H|(line & Hin & H)]; [tauto|].
        apply elem_of_cons in Hin as [->|Hin]; [tauto|].
        right. exists line. split; assumption. }
  intros w. rewrite Hfold. split; [|tauto].
  intros [H|H]; [apply not_elem_of_empty in H; contradiction|exact H].
Qed.

(** One turn of the loop on a line whose stripped form has at least eight
    fields: the stripped text is added exactly when the four tests pass. *)
Lemma loop_body_turn (book_prefixes : list str) (vocabulary : gset str)
    (line : str) (parts : list str) :
  parts = split TAB (strip line) ->
  (8 <= length parts)%nat ->
  let id_field := nth 0 parts [] in
  let text := nth 2 parts [] in
  let exclude := nth 4 parts [] in
  let included :=
    ((2 <= length id_field)%nat /\ take 2 id_field ∈ book_prefixes)
    /\ lower (strip exclude) <> py "y"
    /\ strip text <> []
    /\ is_punctuation (strip text) = false in
  (included ->
   loop_body lower book_prefixes vocabulary line = {[ strip text ]} ∪ vocabulary)
  /\ (~ included ->
      loop_body lower book_prefixes vocabulary line = vocabulary).
Proof.
  intros -> Hlen. cbv zeta. unfold loop_body. cbv zeta.
  assert ((length (split TAB (strip line)) <? 8)%nat = false) as ->
    by (apply Nat.ltb_ge; lia).
  assert ((4 <? length (split TAB (strip line)))%nat = true) as ->
    by (apply Nat.ltb_lt; lia).
  set (parts := split TAB (strip line)). split.
  - intros ((Hid & Hin) & Hex & Hne & Hp).
    rewrite (bool_decide_eq_false_2 _ Hex).
    rewrite (proj2 (Nat.leb_le _ _) Hid).
    rewrite (bool_decide_eq_true_2 _ Hin), Hp.
    destruct (strip (nth 2 parts [])); [congruence|reflexivity].
  - intros Hnot.
    destruct (bool_decide (lower _ = _)) eqn:Hex; [reflexivity|].
    destruct (2 <=? _)%nat eqn:Hid; [|reflexivity].
    destruct (bool_decide (_ ∈ book_prefixes)) eqn:Hin; [|reflexivity].
    destruct (nonempty _) eqn:Hne; [|reflexivity].
    destruct (is_punctuation _) eqn:Hp; [reflexivity|].
    exfalso. apply Hnot.
    apply bool_decide_eq_false_1 in Hex. apply bool_decide_eq_true_1 in Hin.
    apply Nat.leb_le in Hid.
    repeat split; try assumption.
    intros Hnil. rewrite Hnil in Hne. discriminate.
Qed.

(** What a set already holds stays through the remaining turns. *)
Lemma foldl_loop_body_union (book_prefixes : list str) (data : list str)
    (added vocabulary : gset str) :
  foldl (loop_body lower book_prefixes) (added ∪ vocabulary) data
  = added ∪ foldl (loop_body lower book_prefixes) vocabulary data.
Proof.
  revert vocabulary. induction data as [|l data IH]; intros vocabulary; [reflexivity|].
  cbn [foldl]. rewrite <- IH. f_equal.
  rewrite (loop_body_union _ (added ∪ vocabulary)), (loop_body_union _ vocabulary).
  apply set_eq. intros w. rewrite !elem_of_union. tauto.
Qed.

(** The set loaded from a file is what one of its data lines adds,
    together with the set loaded from the other data lines. *)
Lemma foldl_loop_body_line (book_prefixes : list str) (before after : list str)
    (line : str) :
  foldl (loop_body lower book_prefixes) ∅ (before ++ line :: after)
  = loop_body lower book_prefixes ∅ line
    ∪ foldl (loop_body lower book_prefixes) ∅ (before ++ after).
Proof.
  rewrite !foldl_app. cbn [foldl].
  rewrite (loop_body_union _ (foldl (loop_body lower book_prefixes) ∅ before)).
  apply foldl_loop_body_union.
Qed.

(** C1 (as the code has it): the loader strips the whole line before it
    splits it, so the fields are those of the stripped line.  For a data
    line whose stripped form splits into at least eight tab-separated
    fields, the set the loader returns is the set it returns for the file
    without that line, with the stripped text (field 2) added exactly when
    the id (field 0) has two characters and its first two are one of the
    book prefixes, the stripped and lower-cased exclude field (field 4) is
    not "y", the stripped text is non-empty, and the punctuation test does
    not hold of the stripped text; when one of these fails the returned
    set is the one of the file without the line. *)
Theorem load_vocabulary_inclusion (fs' : str -> file_state) (filename : str)
    (book_prefixes : list str) (header : str) (before after : list str)
    (line : str) (parts : list str) (out : str) :
  fs filename = Lines (header :: before ++ line :: after) ->
  fs' filename = Lines (header :: before ++ after) ->
  parts = split TAB (strip line) ->
  (8 <= length parts)%nat ->
  let id_field := nth 0 parts [] in
  let text := nth 2 parts [] in
  let exclude := nth 4 parts [] in
  let included :=
    ((2 <= length id_field)%nat /\ take 2 id_field ∈ book_prefixes)
    /\ lower (strip exclude) <> py "y"
    /\ strip text <> []
    /\ is_punctuation (strip text) = false in
  exists vocabulary rest,
    load_vocabulary lower fs filename book_prefixes out = (out, Return vocabulary)
    /\ load_vocabulary lower fs' filename book_prefixes out = (out, Return rest)
    /\ (included -> vocabulary = {[ strip text ]} ∪ rest /\ strip text ∈ vocabulary)
    /\ (~ included -> vocabulary = rest)
    /\ (included -> forall turn,
           loop_body lower book_prefixes turn line = {[ strip text ]} ∪ turn)
    /\ (~ included -> forall turn,
           loop_body lower book_prefixes turn line = turn).
Proof.
  intros Hfs Hfs' Hparts Hlen. cbv zeta.
  unfold load_vocabulary at 1. rewrite Hfs.
  unfold load_vocabulary at 1. rewrite Hfs'.
  do 2 eexists. split; [reflexivity|]. split; [reflexivity|].
  rewrite foldl_loop_body_line.
  pose proof (fun turn => loop_body_turn book_prefixes turn line parts Hparts Hlen) as Hturn.
  cbv zeta in Hturn.
  split; [|split; [|split]].
  - intros Hinc. rewrite (proj1 (Hturn ∅) Hinc), union_empty_r_L.
    split; [reflexivity|]. apply elem_of_union. left. apply elem_of_singleton. reflexivity.
  - intros Hnot. rewrite (proj2 (Hturn ∅) Hnot). apply union_empty_l_L.
  - intros Hinc turn. exact (proj1 (Hturn turn) Hinc).
  - intros Hnot turn. exact (proj2 (Hturn turn) Hnot).
Qed.

(** C6: a data line whose stripped form splits into fewer than eight
    fields is skipped: it leaves the vocabulary as it is whatever its
    fields hold, and the loader returns, without writing anything, the
    set it returns for the file without that line. *)
Theorem short_line_skipped (filename : str) (book_prefixes : list str)
    (header : str) (before after : list str) (line : str) (out : str) :
  (length (split TAB (strip line)) < 8)%nat ->
  fs filename = Lines (header :: before ++ line :: after) ->
  (forall vocabulary,
      loop_body lower book_prefixes vocabulary line = vocabulary)
  /\ load_vocabulary lower fs filename book_prefixes out
     = (out, Return (foldl (loop_body lower book_prefixes) ∅ (before ++ after))).
Proof.
  intros Hlen Hfs.
  assert (forall vocabulary,
             loop_body lower book_prefixes vocabulary line = vocabulary) as Hskip.
  { intros vocabulary. unfold loop_body. cbv zeta.
    rewrite (proj2 (Nat.ltb_lt _ _) Hlen). reflexivity. }
  split; [exact Hskip|].
  rewrite (load_vocabulary_lines _ _ _ _ _ Hfs).
  rewrite !foldl_app. simpl. rewrite Hskip. reflexivity.
Qed.


(** C9: whenever the loader returns a set, each of its elements is a
    non-empty string that stripping leaves unchanged, so it has no
    white space at either end. *)
Theorem vocabulary_words_stripped (filename : str) (book_prefixes : list str)
    (out out' : str) (vocabulary : gset str) :
  load_vocabulary lower fs filename book_prefixes out = (out', Return vocabulary) ->
  forall w, w ∈ vocabulary -> w <> [] /\ strip w = w.
Proof.
  unfold load_vocabulary. destruct (fs filename) as [| e |[|header data]];
    try (unfold bind, print, sys_exit; simpl; discriminate).
  intros Hret. injection Hret as _ <-.
  apply foldl_loop_body_invariant.
  - intros t Hne. split; [|apply strip_idem].
    intros Hnil. rewrite Hnil in Hne. discriminate.
  - intros w Hw. apply not_elem_of_empty in Hw. contradiction.
Qed.

(** C10: on a corpus file without any line the loader returns no set:
    it writes the generic read-failure line, whose cause is empty, and
    exits with status 1. *)
Theorem empty_file_exits (filename : str) (book_prefixes : list str) (out : str) :
  fs filename = Lines [] ->
  load_vocabulary lower fs filename book_prefixes out
  = (out ++ py "Error reading file: " ++ [LF], SysExit 1)
  /\ exit_status (snd (load_vocabulary lower fs filename book_prefixes out)) <> 0%Z.
Proof.
  intros Hfs. unfold load_vocabulary. rewrite Hfs. split; [reflexivity|].
  simpl. discriminate.
Qed.

End Loader.

(** ** The punctuation test *)

(** C2 (as the code has it): the punctuation test holds of a token exactly
    when the token occurs as a contiguous part of the punctuation string.
    So a one-character token is rejected exactly when its character is one
    of the glyphs, and a token with a character that is not in the
    punctuation string is never rejected; a run of glyphs that are
    adjacent in the string is rejected too. *)
Theorem punctuation_rule (t : str) :
  (is_punctuation t = true <-> exists pre suf, PUNCTUATION = pre ++ t ++ suf)
  /\ (forall c, t = [c] -> (is_punctuation t = true <-> c ∈ PUNCTUATION))
  /\ (forall c, c ∈ t -> c ∉ PUNCTUATION -> is_punctuation t = false).
Proof.
  unfold is_punctuation. split; [apply contains_spec|]. split.
  - intros c ->. rewrite contains_spec. split.
    + intros (pre & suf & ->). apply elem_of_app. right. apply elem_of_app. left.
      apply list_elem_of_singleton. reflexivity.
    + intros Hc. apply list_elem_of_split in Hc as (pre & suf & ->).
      exists pre, suf. reflexivity.
  - intros c Hc Hout. apply not_true_is_false. rewrite contains_spec.
    intros (pre & suf & Heq). apply Hout. rewrite Heq.
    apply elem_of_app. right. apply elem_of_app. left. exact Hc.
Qed.

(** ** The set difference *)

(** C3: the difference [R] of the second vocabulary [B] and the first
    vocabulary [A] holds exactly the strings of [B] that are not in [A]:
    each element of [R] is in [B] and not in [A], each element of [B] is in
    [A] or in [R], and [R] has as many elements as [B] less those that [B]
    shares with [A].  Elements are compared by equality of their code
    point sequences. *)
Theorem difference_correct (A B : gset str) :
  let R := difference B A in
  (forall x, x ∈ R -> x ∈ B /\ x ∉ A)
  /\ (forall x, x ∈ B -> x ∈ A \/ x ∈ R)
  /\ (forall x, x ∈ R <-> x ∈ B /\ x ∉ A)
  /\ size R = (size B - size (B ∩ A))%nat
  /\ (size R + size (B ∩ A) = size B)%nat.
Proof.
  unfold difference. cbv zeta.
  assert (forall x, x ∈ B ∖ A <-> x ∈ B /\ x ∉ A) as Hiff
    by (intros x; apply elem_of_difference).
  assert (size (B ∖ A) + size (B ∩ A) = size B)%nat as Hsize.
  { rewrite <- size_union.
    - f_equal. apply set_eq. intros x.
      rewrite elem_of_union, elem_of_difference, elem_of_intersection.
      destruct (decide (x ∈ A)); tauto.
    - apply elem_of_disjoint. intros x Hx Hx'.
      apply elem_of_difference in Hx as [_ Hx].
      apply elem_of_intersection in Hx' as [_ Hx']. contradiction. }
  split; [intros x; apply Hiff|]. split.
  - intros x Hx. destruct (decide (x ∈ A)); [left; assumption|].
    right. apply Hiff. split; assumption.
  - split; [exact Hiff|]. split; [lia|exact Hsize].
Qed.

(** ** The argument resolver *)

(** C4: when every abbreviation of the list is a key of the book table,
    [get_book_prefixes] returns, without writing anything, a list that
    holds at each position the table's entry for the abbreviation at that
    position: same length, same order, duplicates kept. *)
Theorem get_book_prefixes_lookups (books : list str) (out : str) :
  Forall (fun book => is_Some (USFM_TO_BOOK_NUM !! book)) books ->
  exists nums,
    get_book_prefixes books out = (out, Return nums)
    /\ Forall2 (fun book num => USFM_TO_BOOK_NUM !! book = Some num) books nums
    /\ List.map Some nums = List.map (fun book => USFM_TO_BOOK_NUM !! book) books.
Proof.
  induction 1 as [|book books [num Hnum] _ (nums & Hrun & Hall & Hmap)].
  - exists []. repeat split. constructor.
  - exists (num :: nums). cbn [get_book_prefixes]. rewrite Hnum.
    unfold bind. rewrite Hrun.
    repeat split.
    + constructor; assumption.
    + cbn [List.map]. rewrite Hmap, Hnum. reflexivity.
Qed.

Lemma bind_print {A} (s : str) (k : unit -> Py A) (out : str) :
  bind (print s) k out = k tt (out ++ s ++ [LF]).
Proof. reflexivity. Qed.

Lemma bind_ret {A B} (a : A) (k : A -> Py B) (out : str) :
  bind (ret a) k out = k a out.
Proof. reflexivity. Qed.

Lemma bind_exit {A B} (m : Py A) (k : A -> Py B) (out out' : str) (code : Z) :
  m out = (out', SysExit code) -> bind m k out = (out', SysExit code).
Proof. intros H. unfold bind. rewrite H. reflexivity. Qed.

Lemma bind_return {A B} (m : Py A) (k : A -> Py B) (out out' : str) (a : A) :
  m out = (out', Return a) -> bind m k out = k a out'.
Proof. intros H. unfold bind. rewrite H. reflexivity. Qed.

Lemma validate_books_invalid (books : list str) (out : str) :
  List.filter unrecognized books <> [] ->
  validate_books books out
  = (out ++ (py "Error: Unrecognized book abbreviations: "
             ++ join (py ", ") (List.filter unrecognized books)) ++ [LF]
         ++ py "Valid abbreviations include: GEN, EXO, MAT, MRK, ROM, etc." ++ [LF],
     SysExit 1).
Proof.
  intros Hne. unfold validate_books.
  destruct (List.filter unrecognized books) as [|b l]; [congruence|].
  cbv zeta. change (negb (length (b :: l) =? 0)%nat) with true. cbv iota.
  rewrite !bind_print. unfold sys_exit. rewrite <- !app_assoc. reflexivity.
Qed.

Lemma validate_books_valid (books : list str) (out : str) :
  Forall (fun book => is_Some (USFM_TO_BOOK_NUM !! book)) books ->
  validate_books books out = (out, Return tt).
Proof.
  intros Hall. unfold validate_books.
  assert (List.filter unrecognized books = []) as ->; [|reflexivity].
  induction Hall as [|book books [num Hnum] _ IH]; [reflexivity|].
  cbn [List.filter]. unfold unrecognized at 1. rewrite Hnum. exact IH.
Qed.

(** C5: when one of the abbreviations of either argument is not a key of
    the book table, the program writes its banner, then the line that
    joins with ", " every abbreviation of the two lists that is not a key
    (each of them occurs in that line), then the hint line, and exits with
    status 1. *)
Theorem unknown_book_exits (lower : str -> str) (fs : str -> file_state)
    (argv0 a1 a2 bad out : str) :
  bad ∈ split_ws a1 ++ split_ws a2 ->
  USFM_TO_BOOK_NUM !! bad = None ->
  let books := split_ws a1 ++ split_ws a2 in
  let invalid_books := List.filter unrecognized books in
  let message :=
    py "Error: Unrecognized book abbreviations: " ++ join (py ", ") invalid_books in
  main lower fs [argv0; a1; a2] out
  = (out ++ py "Bible Vocabulary Finder" ++ [LF] ++ times 61 50 ++ [LF]
         ++ message ++ [LF]
         ++ py "Valid abbreviations include: GEN, EXO, MAT, MRK, ROM, etc." ++ [LF],
     SysExit 1)
  /\ exit_status (snd (main lower fs [argv0; a1; a2] out)) <> 0%Z
  /\ (forall b, b ∈ books -> USFM_TO_BOOK_NUM !! b = None ->
                b ∈ invalid_books /\ contains message b = true).
Proof.
  intros Hbad Hnone books invalid_books message.
  assert (forall b, b ∈ books -> USFM_TO_BOOK_NUM !! b = None -> b ∈ invalid_books)
    as Hlisted.
  { intros b Hb Hb'. apply list_elem_of_In, filter_In. split.
    - apply list_elem_of_In, Hb.
    - unfold unrecognized. rewrite Hb'. reflexivity. }
  assert (main lower fs [argv0; a1; a2] out
          = (out ++ py "Bible Vocabulary Finder" ++ [LF] ++ times 61 50 ++ [LF]
                 ++ message ++ [LF]
                 ++ py "Valid abbreviations include: GEN, EXO, MAT, MRK, ROM, etc."
                 ++ [LF],
             SysExit 1)) as Hmain.
  { unfold main. rewrite !bind_print.
    unfold parse_arguments. change (negb (length [argv0; a1; a2] =? 3)%nat) with false.
    cbv iota zeta. rewrite bind_ret. change (nth 1 [argv0; a1; a2] []) with a1.
    change (nth 2 [argv0; a1; a2] []) with a2. cbv beta iota.
    erewrite bind_exit.
    2:{ apply validate_books_invalid. fold books. fold invalid_books.
        intros Hnil. specialize (Hlisted bad Hbad Hnone). rewrite Hnil in Hlisted.
        inversion Hlisted. }
    fold books. fold invalid_books. fold message.
    rewrite <- !app_assoc. reflexivity. }
  split; [exact Hmain|]. split; [rewrite Hmain; cbn [snd exit_status]; discriminate|].
  intros b Hb Hb'. split; [apply Hlisted; assumption|].
  apply contains_spec.
  assert (contains (join (py ", ") invalid_books) b = true) as Hc
    by (apply join_contains, Hlisted; assumption).
  apply contains_spec in Hc as (pre & suf & Hc).
  exists (py "Error: Unrecognized book abbreviations: " ++ pre), suf.
  unfold message. rewrite Hc, <- !app_assoc. reflexivity.
Qed.

(** ** The report *)

Section Order.

Lemma leb_refl (a : str) : leb a a = true.
Proof.
  induction a as [|x a IH]; [reflexivity|].
  change (leb (x :: a) (x :: a)) with ((x <? x) || ((x =? x) && leb a a)).
  rewrite N.eqb_refl, IH. apply orb_true_r.
Qed.

Lemma leb_cons (x y : N) (a b : str) :
  leb (x :: a) (y :: b) = true <-> x < y \/ (x = y /\ leb a b = true).
Proof.
  change (leb (x :: a) (y :: b)) with ((x <? y) || ((x =? y) && leb a b)).
  rewrite orb_true_iff, andb_true_iff, N.ltb_lt, N.eqb_eq. reflexivity.
Qed.

#[global] Instance le_total : Total le.
Proof.
  intros a. unfold le. induction a as [|x a IH]; intros b.
  - left. reflexivity.
  - destruct b as [|y b]; [right; reflexivity|].
    rewrite !leb_cons. destruct (N.lt_trichotomy x y) as [H|[H|H]].
    + left. left. exact H.
    + destruct (IH b) as [Hab|Hba]; [left|right]; right; split; congruence.
    + right. left. exact H.
Qed.

#[global] Instance le_trans : Transitive le.
Proof.
  intros a. unfold le. induction a as [|x a IH]; intros b c Hab Hbc.
  - reflexivity.
  - destruct b as [|y b]; [discriminate|]. destruct c as [|z c]; [discriminate|].
    rewrite leb_cons in *.
    destruct Hab as [Hab|[-> Hab]]; destruct Hbc as [Hbc|[-> Hbc]].
    + left. lia.
    + left. exact Hab.
    + left. exact Hbc.
    + right. split; [reflexivity|]. exact (IH _ _ Hab Hbc).
Qed.

(** [sorted] returns the elements of the set, each once, in ascending
    lexicographic order. *)
Lemma sorted_spec (s : gset str) :
  StronglySorted le (sorted s)
  /\ NoDup (sorted s)
  /\ (forall w, w ∈ sorted s <-> w ∈ s)
  /\ length (sorted s) = size s.
Proof.
  unfold sorted. pose proof (merge_sort_Permutation le (elements s)) as Hperm.
  split; [apply StronglySorted_merge_sort; apply _|]. split.
  - rewrite Hperm. apply NoDup_elements.
  - split.
    + intros w. rewrite Hperm. apply elem_of_elements.
    + rewrite Hperm. reflexivity.
Qed.

End Order.

Section Columns.

Lemma for_each_print_word (l : list (nat * str)) (out : str) :
  for_each l print_word out = (out ++ concat (List.map word_text l), Return tt).
Proof.
  revert out. induction l as [|[i w] l IH]; intros out.
  - simpl. rewrite app_nil_r. reflexivity.
  - cbn [for_each List.map concat]. unfold bind at 1.
    assert (print_word (i, w) out = (out ++ word_text (i, w), Return tt)) as ->.
    { unfold print_word, word_text, bind, print_noend, print, ret. cbn [fst snd].
      destruct (i mod 6 =? 0)%nat;
        [rewrite <- app_assoc|rewrite app_nil_r]; reflexivity. }
    rewrite IH, <- app_assoc. reflexivity.
Qed.

Lemma enumerate_cons {A} (x : A) (l : list A) (i : nat) :
  enumerate (x :: l) i = (i, x) :: enumerate l (S i).
Proof. reflexivity. Qed.

Lemma enumerate_app {A} (l1 l2 : list A) (i : nat) :
  enumerate (l1 ++ l2) i = enumerate l1 i ++ enumerate l2 (i + length l1).
Proof.
  revert i. induction l1 as [|x l1 IH]; intros i.
  - simpl. rewrite Nat.add_0_r. reflexivity.
  - cbn [app length]. rewrite !enumerate_cons, IH.
    replace (S i + length l1)%nat with (i + S (length l1))%nat by lia. reflexivity.
Qed.

(** Words that do not reach the sixth column are written side by side. *)
Lemma words_text_partial (r : list str) (i : nat) :
  (1 <= i mod 6)%nat -> (i mod 6 + length r <= 6)%nat ->
  concat (List.map word_text (enumerate r i)) = row_text r.
Proof.
  revert i. induction r as [|w r IH]; intros i Hlo Hhi; [reflexivity|].
  rewrite enumerate_cons. cbn [List.map concat]. unfold row_text. cbn [List.map concat].
  unfold word_text at 1. cbn [fst snd].
  assert ((i mod 6 =? 0)%nat = false) as -> by (apply Nat.eqb_neq; lia).
  rewrite app_nil_r. f_equal.
  destruct r as [|w' r]; [reflexivity|].
  apply IH; cbn [length] in *.
  - assert (S i mod 6 = i mod 6 + 1)%nat by
      (rewrite (Nat.div_mod_eq i 6) at 1;
       replace (S (6 * (i / 6) + i mod 6))%nat with ((i mod 6 + 1) + (i / 6) * 6)%nat by lia;
       rewrite Nat.Div0.mod_add; apply Nat.mod_small; lia).
    lia.
  - assert (S i mod 6 = i mod 6 + 1)%nat by
      (rewrite (Nat.div_mod_eq i 6) at 1;
       replace (S (6 * (i / 6) + i mod 6))%nat with ((i mod 6 + 1) + (i / 6) * 6)%nat by lia;
       rewrite Nat.Div0.mod_add; apply Nat.mod_small; lia).
    lia.
Qed.

(** Six words starting in the first column fill a line, which is ended. *)
Lemma words_text_full (r : list str) (i : nat) :
  (i mod 6 = 1)%nat -> length r = 6%nat ->
  concat (List.map word_text (enumerate r i)) = row_text r ++ [LF].
Proof.
  intros Hi Hr.
  induction r as [|w r5 _] using rev_ind; [discriminate|].
  rewrite length_app in Hr. cbn [length] in Hr.
  rewrite enumerate_app, List.map_app, concat_app.
  rewrite words_text_partial by lia.
  unfold row_text. rewrite List.map_app, concat_app, <- app_assoc. f_equal.
  change (enumerate [w] (i + length r5)) with [((i + length r5)%nat, w)].
  cbn [List.map concat]. unfold word_text. cbn [fst snd].
  assert (((i + length r5) mod 6 =? 0)%nat = true) as ->.
  { apply Nat.eqb_eq. rewrite (Nat.div_mod_eq i 6), Hi.
    replace (6 * (i / 6) + 1 + length r5)%nat with (0 + (i / 6 + 1) * 6)%nat by lia.
    rewrite Nat.Div0.mod_add. reflexivity. }
  rewrite !app_nil_r. reflexivity.
Qed.

End Columns.

Lemma words_text_rows (rows : list (list str)) (rest : list str) (i : nat) :
  (i mod 6 = 1)%nat ->
  Forall (fun r => length r = 6%nat) rows ->
  (length rest < 6)%nat ->
  concat (List.map word_text (enumerate (concat rows ++ rest) i))
  = concat (List.map (fun r => row_text r ++ [LF]) rows) ++ row_text rest.
Proof.
  intros Hi Hrows Hrest. revert i Hi.
  induction Hrows as [|r rows Hr _ IH]; intros i Hi.
  - cbn [concat List.map app]. apply words_text_partial; lia.
  - cbn [concat List.map]. rewrite <- !app_assoc, enumerate_app, List.map_app, concat_app.
    rewrite (words_text_full r i Hi Hr), IH; [rewrite <- !app_assoc; reflexivity|].
    rewrite Hr. replace (i + 6)%nat with (i + 1 * 6)%nat by lia.
    rewrite Nat.Div0.mod_add. exact Hi.
Qed.

(** Every list is a sequence of rows of six followed by fewer than six. *)
Lemma rows_exist {A} (l : list A) :
  exists (rows : list (list A)) (rest : list A),
    l = concat rows ++ rest
    /\ Forall (fun r => length r = 6%nat) rows
    /\ (length rest < 6)%nat.
Proof.
  induction l as [|x l (rows & rest & -> & Hrows & Hrest)] using rev_ind.
  - exists [], []. repeat split; [constructor|simpl; lia].
  - destruct (decide (length rest = 5%nat)) as [H5|H5].
    + exists (rows ++ [rest ++ [x]]), []. split; [|split].
      * rewrite concat_app. simpl. rewrite !app_nil_r, <- app_assoc. reflexivity.
      * apply Forall_app. split; [exact Hrows|]. constructor; [|constructor].
        rewrite length_app. simpl. lia.
      * simpl. lia.
    + exists rows, (rest ++ [x]). split; [|split].
      * rewrite <- app_assoc. reflexivity.
      * exact Hrows.
      * rewrite length_app. simpl. lia.
Qed.

Lemma length_concat_rows {A} (rows : list (list A)) :
  Forall (fun r => length r = 6%nat) rows ->
  length (concat rows) = (length rows * 6)%nat.
Proof.
  induction 1 as [|r rows Hr _ IH]; [reflexivity|].
  cbn [concat length]. rewrite length_app, Hr, IH. lia.
Qed.

(** C7 (as the code has it): for a non-empty difference the report holds,
    after the statistics and a heading, the words in ascending
    lexicographic order, each one padded on the right with spaces to ten
    characters (a word of ten characters or more is written as it is), in
    lines of six words, the last line holding the words that remain when
    their number is not a multiple of six, and then the line with the
    total; for an empty difference it holds, after the statistics, the two
    lines saying that there is no unique vocabulary, and no word. *)
Theorem display_results_layout (second_books : list str)
    (first_vocab second_vocab unique_vocab : gset str) (out : str) :
  let statistics :=
    [LF] ++ py "Vocabulary Statistics:" ++ [LF]
    ++ py "Words in first set: " ++ of_nat (size first_vocab) ++ [LF]
    ++ py "Words in second set: " ++ of_nat (size second_vocab) ++ [LF]
    ++ py "Unique words in second set: " ++ of_nat (size unique_vocab) ++ [LF] in
  (StronglySorted le (sorted unique_vocab)
   /\ NoDup (sorted unique_vocab)
   /\ (forall w, w ∈ sorted unique_vocab <-> w ∈ unique_vocab))
  /\ (forall w : str,
         ((length w <= 10)%nat -> length (ljust w 10) = 10%nat)
         /\ ((10 <= length w)%nat -> ljust w 10 = w))
  /\ (exists (rows : list (list str)) (rest : list str),
         sorted unique_vocab = concat rows ++ rest
         /\ Forall (fun r => length r = 6%nat) rows
         /\ (length rest < 6)%nat
         /\ (unique_vocab <> ∅ ->
             display_results second_books first_vocab second_vocab unique_vocab out
             = (out ++ statistics
                    ++ [LF] ++ py "Unique vocabulary found in "
                    ++ join [SPACE] second_books ++ py ":" ++ [LF]
                    ++ times 45 40 ++ [LF]
                    ++ concat (List.map (fun r => row_text r ++ [LF]) rows)
                    ++ match rest with
                       | [] => []
                       | _ :: _ => row_text rest ++ [LF]
                       end
                    ++ [LF] ++ py "Total unique words: "
                    ++ of_nat (size unique_vocab) ++ [LF],
                Return tt)))
  /\ (unique_vocab = ∅ ->
      display_results second_books first_vocab second_vocab unique_vocab out
      = (out ++ statistics
             ++ [LF] ++ py "No unique vocabulary found in "
             ++ join [SPACE] second_books ++ py "." ++ [LF]
             ++ py "All words in the second set also appear in the first set." ++ [LF],
         Return tt)).
Proof.
  intros statistics.
  destruct (sorted_spec unique_vocab) as (Hsorted & Hnodup & Helem & Hlen).
  split; [repeat split; try assumption; apply Helem|].
  split.
  { intros w. unfold ljust. split; intros Hw.
    - rewrite length_app, repeat_length. lia.
    - replace (10 - length w)%nat with 0%nat by lia. apply app_nil_r. }
  split.
  - destruct (rows_exist (sorted unique_vocab)) as (rows & rest & Hdec & Hrows & Hrest).
    exists rows, rest. split; [exact Hdec|]. split; [exact Hrows|]. split; [exact Hrest|].
    intros Hne. unfold display_results. rewrite !bind_print.
    rewrite (bool_decide_eq_true_2 _ Hne). rewrite !bind_print.
    cbv zeta. unfold bind at 1. rewrite for_each_print_word.
    rewrite Hdec, (words_text_rows rows rest 1 eq_refl Hrows Hrest).
    assert (length (concat rows ++ rest) mod 6 = length rest)%nat as Hmod.
    { rewrite length_app, (length_concat_rows rows Hrows), Nat.add_comm.
      rewrite Nat.Div0.mod_add. apply Nat.mod_small, Hrest. }
    rewrite Hmod. destruct rest as [|w rest].
    + change (negb (length ([] : list str) =? 0)%nat) with false. cbv iota.
      rewrite bind_ret. unfold print, statistics, row_text.
      cbn [List.map concat]. rewrite <- !app_assoc. reflexivity.
    + change (negb (length (w :: rest) =? 0)%nat) with true. cbv iota.
      rewrite bind_print. unfold print, statistics.
      rewrite <- !app_assoc. reflexivity.
  - intros ->. unfold display_results. rewrite !bind_print.
    rewrite bool_decide_eq_false_2 by (intros H; apply H; reflexivity).
    rewrite !bind_print. unfold print, statistics.
    rewrite <- !app_assoc. reflexivity.
Qed.

(** ** The program on concrete inputs *)

Example sample_scenario :
  load_vocabulary ascii_lower sample_fs CORPUS [py "01"] []
  = ([], Return {[ py "the" ]})
  /\ load_vocabulary ascii_lower sample_fs CORPUS [py "40"] []
     = ([], Return ({[ py "the" ]} ∪ {[ py "kingdom" ]}))
  /\ difference ({[ py "the" ]} ∪ {[ py "kingdom" ]}) {[ py "the" ]}
     = ({[ py "kingdom" ]} : gset str)
  /\ snd (main ascii_lower sample_fs [py "vocabfind.py"; py "GEN"; py "MAT"] [])
     = Return tt.
Proof. repeat split; vm_compute; reflexivity. Qed.

Example empty_corpus_run :
  main ascii_lower (fun _ => Lines []) [py "vocabfind.py"; py "GEN"; py "MAT"] []
  = (py "Bible Vocabulary Finder" ++ [LF] ++ times 61 50 ++ [LF]
     ++ py "First set of books: GEN" ++ [LF]
     ++ py "Second set of books: MAT" ++ [LF] ++ [LF]
     ++ py "Loading vocabulary from first set..." ++ [LF]
     ++ py "Error reading file: " ++ [LF],
     SysExit 1).
Proof. vm_compute. reflexivity. Qed.

Lemma load_vocabulary_inclusion_witness :
  exists vocabulary rest,
    load_vocabulary ascii_lower sample_fs CORPUS [py "40"] [] = ([], Return vocabulary)
    /\ load_vocabulary ascii_lower
         (fun _ => Lines (firstn 2 sample_corpus ++ skipn 3 sample_corpus))
         CORPUS [py "40"] [] = ([], Return rest)
    /\ vocabulary = {[ py "kingdom" ]} ∪ rest.
Proof.
  destruct (load_vocabulary_inclusion ascii_lower sample_fs
              (fun _ => Lines (firstn 2 sample_corpus ++ skipn 3 sample_corpus))
              CORPUS [py "40"]
              (tsv_row (List.map py ["id"; "ref"; "text"; "lemma"; "exclude"; "f5"; "f6"; "f7"]%string))
              [tsv_row (List.map py ["40001001"; "a"; "the"; "b"; "n"; "c"; "d"; "e"]%string)]
              [tsv_row (List.map py ["01001001"; "a"; "the"; "b"; "n"; "c"; "d"; "e"]%string)]
              (tsv_row (List.map py ["40001002"; "a"; "kingdom"; "b"; "n"; "c"; "d"; "e"]%string))
              (List.map py ["40001002"; "a"; "kingdom"; "b"; "n"; "c"; "d"; "e"]%string)
              [])
    as (vocabulary & rest & Hrun & Hrest & Hadd & _).
  - reflexivity.
  - reflexivity.
  - vm_compute. reflexivity.
  - vm_compute. lia.
  - exists vocabulary, rest. split; [exact Hrun|]. split; [exact Hrest|].
    apply Hadd. repeat split.
    + vm_compute. lia.
    + apply list_elem_of_singleton. vm_compute. reflexivity.
    + vm_compute. discriminate.
    + vm_compute. discriminate.
Defined.

(** C1, as stated, fails in both directions, because the line is stripped
    before it is split.  A line of eight tab-separated fields whose five
    last fields are empty meets every condition on its own fields (the id
    starts with a prefix of the group, the exclude field is not "y", the
    text is a word), yet the loader returns the empty set.  A line that
    starts with a space has an id whose first two characters are not a
    prefix of the group, yet the loader returns its text. *)
Lemma raw_fields_counterexample :
  let raw := join [TAB] (List.map py ["40001001"; "a"; "the"; ""; ""; ""; ""; ""]%string) in
  let fields := split TAB raw in
  let raw' := join [TAB] (List.map py [" 40001001"; "a"; "the"; "b"; "n"; "c"; "d"; "e"]%string) in
  let fields' := split TAB raw' in
  (length fields = 8%nat
   /\ take 2 (nth 0 fields []) ∈ [py "40"]
   /\ ascii_lower (strip (nth 4 fields [])) <> py "y"
   /\ strip (nth 2 fields []) = py "the"
   /\ is_punctuation (strip (nth 2 fields [])) = false
   /\ load_vocabulary ascii_lower (fun _ => Lines [py "header" ++ [LF]; raw ++ [LF]])
        CORPUS [py "40"] []
      = ([], Return ∅))
  /\ (length fields' = 8%nat
      /\ take 2 (nth 0 fields' []) = py " 4"
      /\ (take 2 (nth 0 fields' []) ∉ [py "40"])
      /\ load_vocabulary ascii_lower (fun _ => Lines [py "header" ++ [LF]; raw' ++ [LF]])
           CORPUS [py "40"] []
         = ([], Return {[ py "the" ]})).
Proof.
  cbv zeta. split.
  - split; [vm_compute; reflexivity|]. split.
    { apply list_elem_of_singleton. vm_compute. reflexivity. }
    split; [vm_compute; discriminate|].
    repeat split; vm_compute; reflexivity.
  - split; [vm_compute; reflexivity|]. split; [vm_compute; reflexivity|]. split.
    { intros H. apply list_elem_of_singleton in H. vm_compute in H. discriminate. }
    vm_compute. reflexivity.
Qed.

Lemma short_line_skipped_witness :
  load_vocabulary ascii_lower
    (fun _ => Lines [ py "header";
                      tsv_row (List.map py ["40001001"; "a"; "the"; "b"; "n"; "c"; "d"]%string);
                      tsv_row (List.map py ["40001002"; "a"; "kingdom"; "b"; "n"; "c"; "d"; "e"]%string) ])
    CORPUS [py "40"] []
  = ([], Return (foldl (loop_body ascii_lower [py "40"]) ∅
                   ([] ++ [tsv_row (List.map py ["40001002"; "a"; "kingdom"; "b"; "n"; "c"; "d"; "e"]%string)]))).
Proof.
  refine (proj2 (short_line_skipped ascii_lower _ CORPUS [py "40"] (py "header") []
                   [tsv_row (List.map py ["40001002"; "a"; "kingdom"; "b"; "n"; "c"; "d"; "e"]%string)]
                   (tsv_row (List.map py ["40001001"; "a"; "the"; "b"; "n"; "c"; "d"]%string))
                   [] _ _)).
  - vm_compute. lia.
  - reflexivity.
Defined.


Lemma vocabulary_words_stripped_witness :
  py "kingdom" <> [] /\ strip (py "kingdom") = py "kingdom".
Proof.
  apply (vocabulary_words_stripped ascii_lower sample_fs CORPUS [py "40"] [] []
           ({[ py "the" ]} ∪ {[ py "kingdom" ]})).
  - vm_compute. reflexivity.
  - apply elem_of_union. right. apply elem_of_singleton. reflexivity.
Defined.

Lemma empty_file_exits_witness :
  load_vocabulary ascii_lower (fun _ => Lines []) CORPUS [py "40"] []
  = ([] ++ py "Error reading file: " ++ [LF], SysExit 1)
  /\ exit_status (snd (load_vocabulary ascii_lower (fun _ => Lines []) CORPUS [py "40"] []))
     <> 0%Z.
Proof.
  apply (empty_file_exits ascii_lower (fun _ => Lines []) CORPUS [py "40"] []).
  reflexivity.
Defined.

(** The comma glyph is rejected, the comma followed by a word is not. *)
Lemma punctuation_rule_witness :
  is_punctuation [0xFF0C] = true
  /\ is_punctuation ([0xFF0C] ++ py "hello") = false.
Proof.
  split.
  - apply (proj1 (proj2 (punctuation_rule [0xFF0C])) 0xFF0C eq_refl).
    apply list_elem_of_here.
  - apply (proj2 (proj2 (punctuation_rule ([0xFF0C] ++ py "hello"))) 104).
    + vm_compute. do 1 apply list_elem_of_further. apply list_elem_of_here.
    + vm_compute. intros H.
      repeat (apply elem_of_cons in H as [H|H]; [discriminate|]). inversion H.
Defined.

(** C2, as stated, fails: the comma followed by the full stop is a token of
    two characters that stripping leaves unchanged, and the punctuation
    test holds of it, so a row with that text adds nothing. *)
Lemma punctuation_run_rejected :
  let t : str := [0xFF0C; 0x3002] in
  strip t = t
  /\ (1 < length t)%nat
  /\ is_punctuation t = true
  /\ loop_body ascii_lower [py "40"] ∅
       (tsv_row [py "40001001"; py "a"; t; py "b"; py "n"; py "c"; py "d"; py "e"])
     = ∅.
Proof. cbv zeta. repeat split; vm_compute; try reflexivity; lia. Qed.

Lemma difference_correct_witness :
  let A : gset str := {[ py "the" ]} in
  let B : gset str := {[ py "the" ]} ∪ {[ py "kingdom" ]} in
  (py "kingdom" ∈ B /\ py "kingdom" ∉ A)
  /\ (py "the" ∈ A \/ py "the" ∈ difference B A)
  /\ size (difference B A) = (size B - size (B ∩ A))%nat.
Proof.
  intros A B. destruct (difference_correct A B) as (Hsub & Hpart & Hiff & Hsize & _).
  split; [|split].
  - apply Hsub. apply Hiff. split.
    + apply elem_of_union. right. apply elem_of_singleton. reflexivity.
    + intros H. apply elem_of_singleton in H. discriminate.
  - apply Hpart. apply elem_of_union. left. apply elem_of_singleton. reflexivity.
  - exact Hsize.
Defined.

Lemma get_book_prefixes_lookups_witness :
  exists nums,
    get_book_prefixes [py "MAT"; py "GEN"; py "MAT"] [] = ([], Return nums)
    /\ Forall2 (fun book num => USFM_TO_BOOK_NUM !! book = Some num)
         [py "MAT"; py "GEN"; py "MAT"] nums
    /\ List.map Some nums
       = List.map (fun book => USFM_TO_BOOK_NUM !! book) [py "MAT"; py "GEN"; py "MAT"].
Proof.
  apply (get_book_prefixes_lookups [py "MAT"; py "GEN"; py "MAT"] []).
  repeat constructor; vm_compute; eexists; reflexivity.
Defined.

Lemma unknown_book_exits_witness :
  main ascii_lower sample_fs [py "vocabfind.py"; py "GEN XYZ"; py "MAT QQ"] []
  = ([] ++ py "Bible Vocabulary Finder" ++ [LF] ++ times 61 50 ++ [LF]
        ++ (py "Error: Unrecognized book abbreviations: "
            ++ join (py ", ")
                 (List.filter unrecognized (split_ws (py "GEN XYZ") ++ split_ws (py "MAT QQ"))))
        ++ [LF]
        ++ py "Valid abbreviations include: GEN, EXO, MAT, MRK, ROM, etc." ++ [LF],
     SysExit 1).
Proof.
  refine (proj1 (unknown_book_exits ascii_lower sample_fs (py "vocabfind.py")
                   (py "GEN XYZ") (py "MAT QQ") (py "XYZ") [] _ _)).
  - vm_compute. apply list_elem_of_further. apply list_elem_of_here.
  - vm_compute. reflexivity.
Defined.

(** Seven words: a line of six and a line of one. *)
Lemma display_results_layout_witness :
  let unique_vocab : gset str :=
    list_to_set (List.map py ["a"; "b"; "c"; "d"; "e"; "f"; "g"]%string) in
  exists (rows : list (list str)) (rest : list str),
    sorted unique_vocab = concat rows ++ rest
    /\ Forall (fun r => length r = 6%nat) rows
    /\ (length rest < 6)%nat
    /\ display_results [py "MAT"] ∅ unique_vocab unique_vocab []
       = ([] ++ ([LF] ++ py "Vocabulary Statistics:" ++ [LF]
                 ++ py "Words in first set: " ++ of_nat (size (∅ : gset str)) ++ [LF]
                 ++ py "Words in second set: " ++ of_nat (size unique_vocab) ++ [LF]
                 ++ py "Unique words in second set: " ++ of_nat (size unique_vocab) ++ [LF])
             ++ [LF] ++ py "Unique vocabulary found in "
             ++ join [SPACE] [py "MAT"] ++ py ":" ++ [LF]
             ++ times 45 40 ++ [LF]
             ++ concat (List.map (fun r => row_text r ++ [LF]) rows)
             ++ match rest with
                | [] => []
                | _ :: _ => row_text rest ++ [LF]
                end
             ++ [LF] ++ py "Total unique words: "
             ++ of_nat (size unique_vocab) ++ [LF],
          Return tt).
Proof.
  intros unique_vocab.
  destruct (display_results_layout [py "MAT"] ∅ unique_vocab unique_vocab [])
    as (_ & _ & (rows & rest & Hdec & Hrows & Hrest & Hout) & _).
  exists rows, rest. split; [exact Hdec|]. split; [exact Hrows|]. split; [exact Hrest|].
  apply Hout. intros Hempty.
  assert (py "a" ∈ unique_vocab) as Hin
    by (apply elem_of_list_to_set; apply list_elem_of_here).
  rewrite Hempty in Hin. apply not_elem_of_empty in Hin. exact Hin.
Defined.

(** C7, as stated, fails: a difference that holds the one word
    "abcdefghijkl" is written as a line with that word alone, twelve
    characters wide; the line does not hold six words and the column is
    not ten characters wide. *)
Lemma display_results_long_word :
  let word := py "abcdefghijkl" in
  let unique_vocab : gset str := {[ word ]} in
  unique_vocab <> ∅
  /\ display_results [py "MAT"] ∅ unique_vocab unique_vocab []
     = ([LF] ++ py "Vocabulary Statistics:" ++ [LF]
        ++ py "Words in first set: 0" ++ [LF]
        ++ py "Words in second set: 1" ++ [LF]
        ++ py "Unique words in second set: 1" ++ [LF]
        ++ [LF] ++ py "Unique vocabulary found in MAT:" ++ [LF]
        ++ times 45 40 ++ [LF]
        ++ word ++ [LF]
        ++ [LF] ++ py "Total unique words: 1" ++ [LF],
        Return tt)
  /\ sorted unique_vocab = [word]
  /\ length (ljust word 10) = 12%nat
  /\ ~ (exists rows : list (list str),
           concat rows = sorted unique_vocab
           /\ Forall (fun r => length r = 6%nat) rows).
Proof.
  cbv zeta. split; [|split; [|split; [|split]]].
  - intros H. apply (f_equal size) in H. vm_compute in H. discriminate.
  - vm_compute. reflexivity.
  - vm_compute. reflexivity.
  - vm_compute. reflexivity.
  - intros (rows & Hcat & Hrows).
    assert (sorted ({[ py "abcdefghijkl" ]} : gset str) = [py "abcdefghijkl"]) as Hs
      by (vm_compute; reflexivity).
    rewrite Hs in Hcat. apply (f_equal length) in Hcat.
    rewrite (length_concat_rows rows Hrows) in Hcat. cbn [length] in Hcat. lia.
Qed.

(** ** Further properties: the book table and the argument resolver *)

Lemma NoDup_snd_inj {A B} (l : list (A * B)) (a b : A) (p : B) :
  NoDup (l.*2) -> (a, p) ∈ l -> (b, p) ∈ l -> a = b.
Proof.
  induction l as [|[k v] l IH]; intros Hnd Ha Hb; [inversion Ha|].
  cbn [fmap list_fmap snd] in Hnd. apply NoDup_cons in Hnd as [Hv Hnd].
  apply elem_of_cons in Ha as [Ha|Ha]; apply elem_of_cons in Hb as [Hb|Hb].
  - congruence.
  - exfalso. injection Ha as _ ->. apply Hv.
    apply (list_elem_of_fmap_2 snd) in Hb. exact Hb.
  - exfalso. injection Hb as _ ->. apply Hv.
    apply (list_elem_of_fmap_2 snd) in Ha. exact Ha.
  - exact (IH Hnd Ha Hb).
Qed.

(** X1: the book table has 66 entries, and it never gives two different
    abbreviations the same number. *)
Theorem book_table_injective :
  size USFM_TO_BOOK_NUM = 66%nat
  /\ forall a b num : str,
       USFM_TO_BOOK_NUM !! a = Some num -> USFM_TO_BOOK_NUM !! b = Some num -> a = b.
Proof.
  split; [vm_compute; reflexivity|].
  intros a b num Ha Hb.
  apply elem_of_map_to_list in Ha. apply elem_of_map_to_list in Hb.
  refine (NoDup_snd_inj _ a b num _ Ha Hb).
  refine (bool_decide_unpack (NoDup ((map_to_list USFM_TO_BOOK_NUM).*2)) _).
  vm_compute. exact I.
Qed.

Lemma book_table_injective_witness : py "MAT" = py "MAT".
Proof.
  apply (proj2 book_table_injective (py "MAT") (py "MAT") (py "40"));
    vm_compute; reflexivity.
Defined.

Lemma book_table_values (book num : str) :
  USFM_TO_BOOK_NUM !! book = Some num ->
  length num = 2%nat /\ forallb isdigit num = true.
Proof.
  intros Hb. apply elem_of_map_to_list in Hb.
  assert (Forall (fun kv : str * str =>
                    length kv.2 = 2%nat /\ forallb isdigit kv.2 = true)
            (map_to_list USFM_TO_BOOK_NUM)) as Hall
    by (refine (bool_decide_unpack _ _); vm_compute; exact I).
  rewrite Forall_forall in Hall. exact (Hall _ Hb).
Qed.

Lemma get_book_prefixes_valid (books : list str) (out : str) :
  Forall (fun book => is_Some (USFM_TO_BOOK_NUM !! book)) books ->
  get_book_prefixes books out = (out, Return (book_nums books)).
Proof.
  induction 1 as [|book books [num Hnum] _ IH]; [reflexivity|].
  cbn [get_book_prefixes]. rewrite Hnum. unfold bind. rewrite IH.
  unfold book_nums. cbn [omap list_omap]. rewrite Hnum. reflexivity.
Qed.

(** X2: whenever [get_book_prefixes] returns a list, each of its elements
    is made of exactly two decimal digits, so it can be compared with the
    first two characters of an id. *)
Theorem get_book_prefixes_two_digits (books nums : list str) (out out' : str) :
  get_book_prefixes books out = (out', Return nums) ->
  Forall (fun num => length num = 2%nat /\ forallb isdigit num = true) nums.
Proof.
  revert nums. induction books as [|book books IH]; intros nums Hrun.
  - injection Hrun as _ <-. constructor.
  - cbn [get_book_prefixes] in Hrun.
    destruct (USFM_TO_BOOK_NUM !! book) as [num|] eqn:Hnum; [|discriminate].
    unfold bind in Hrun.
    destruct (get_book_prefixes books out) as [out1 [nums1| |]] eqn:Hrest;
      try discriminate.
    injection Hrun as <- <-. constructor.
    + exact (book_table_values _ _ Hnum).
    + apply IH. reflexivity.
Qed.

Lemma get_book_prefixes_two_digits_witness :
  Forall (fun num => length num = 2%nat /\ forallb isdigit num = true)
    [py "40"; py "01"].
Proof.
  apply (get_book_prefixes_two_digits [py "MAT"; py "GEN"] [py "40"; py "01"] [] []).
  vm_compute. reflexivity.
Defined.

(** X3: the subscript on a missing key: when the abbreviations before
    [book] are keys of the table and [book] is not, [get_book_prefixes]
    raises [KeyError] for [book], whatever follows it, and writes
    nothing. *)
Theorem get_book_prefixes_key_error (before after : list str) (book out : str) :
  Forall (fun b => is_Some (USFM_TO_BOOK_NUM !! b)) before ->
  USFM_TO_BOOK_NUM !! book = None ->
  get_book_prefixes (before ++ book :: after) out = (out, Uncaught (KeyError book)).
Proof.
  intros Hbefore Hnone. induction Hbefore as [|b before [num Hnum] _ IH].
  - cbn [app get_book_prefixes]. rewrite Hnone. reflexivity.
  - cbn [app get_book_prefixes]. rewrite Hnum. unfold bind. rewrite IH. reflexivity.
Qed.

Lemma get_book_prefixes_key_error_witness :
  get_book_prefixes ([py "MAT"] ++ py "XYZ" :: [py "QQ"]) []
  = ([], Uncaught (KeyError (py "XYZ"))).
Proof.
  apply get_book_prefixes_key_error.
  - repeat constructor. vm_compute. eexists. reflexivity.
  - vm_compute. reflexivity.
Defined.

Lemma split_by_fields_free (is_sep : N -> bool) (s : str) :
  Forall (Forall (fun c => is_sep c = false)) (split_by is_sep s).
Proof.
  induction s as [|c s IH]; cbn [split_by]; [repeat constructor|].
  destruct (is_sep c) eqn:Hc; [constructor; [constructor|exact IH]|].
  destruct (split_by is_sep s) as [|f fs]; [repeat constructor; exact Hc|].
  apply Forall_cons in IH as [Hf Hfs].
  constructor; [constructor; assumption|exact Hfs].
Qed.

(** X4: whenever [parse_arguments] returns two lists, each abbreviation in
    them is non-empty and holds no white space, whatever white space the
    arguments hold around and between the abbreviations. *)
Theorem parse_arguments_tokens (argv first_books second_books : list str)
    (out out' : str) :
  parse_arguments argv out = (out', Return (first_books, second_books)) ->
  out' = out
  /\ length argv = 3%nat
  /\ forall book, book ∈ first_books ++ second_books ->
                  book <> [] /\ Forall (fun c => isspace c = false) book.
Proof.
  unfold parse_arguments.
  destruct (negb (length argv =? 3)%nat) eqn:Hlen; [discriminate|].
  intros Hret. injection Hret as <- <- <-.
  split; [reflexivity|]. split.
  { apply negb_false_iff, Nat.eqb_eq in Hlen. exact Hlen. }
  assert (forall s book, book ∈ split_ws s ->
            book <> [] /\ Forall (fun c => isspace c = false) book) as Hws.
  { intros s book Hb. unfold split_ws in Hb.
    apply list_elem_of_In, filter_In in Hb as [Hb Hne]. split.
    - intros ->. discriminate.
    - pose proof (split_by_fields_free isspace s) as Hall.
      rewrite Forall_forall in Hall. apply Hall, list_elem_of_In, Hb. }
  intros book Hb. apply elem_of_app in Hb as [Hb|Hb]; eapply Hws; exact Hb.
Qed.

Lemma parse_arguments_tokens_witness :
  py "EXO" <> [] /\ Forall (fun c => isspace c = false) (py "EXO").
Proof.
  refine (proj2 (proj2 (parse_arguments_tokens
                          [py "vocabfind.py"; py "  GEN   EXO "; 9 :: py "MAT"]
                          [py "GEN"; py "EXO"] [py "MAT"] [] [] _)) (py "EXO") _).
  - vm_compute. reflexivity.
  - apply list_elem_of_further, list_elem_of_here.
Defined.

Lemma split_ws_join (books : list str) :
  Forall (fun book => book <> [] /\ Forall (fun c => isspace c = false) book) books ->
  split_ws (join [SPACE] books) = books.
Proof.
  intros Hall. unfold split_ws. destruct books as [|b books]; [reflexivity|].
  rewrite split_by_join; [|reflexivity|discriminate|].
  - induction Hall as [|x l [Hx _] _ IH]; [reflexivity|].
    cbn [List.filter]. destruct x; [congruence|]. cbn [nonempty]. rewrite IH. reflexivity.
  - eapply Forall_impl; [exact Hall|]. intros x [_ Hx]. exact Hx.
Qed.

(** X5: joining abbreviations with single spaces and parsing the result
    gives the abbreviations back: for two lists of non-empty strings
    without white space (either may be empty), [parse_arguments] on the two
    joined arguments returns the two lists and writes nothing. *)
Theorem parse_arguments_join (argv0 : str) (first_books second_books : list str)
    (out : str) :
  Forall (fun book => book <> [] /\ Forall (fun c => isspace c = false) book)
    (first_books ++ second_books) ->
  parse_arguments [argv0; join [SPACE] first_books; join [SPACE] second_books] out
  = (out, Return (first_books, second_books)).
Proof.
  intros Hall. apply Forall_app in Hall as [H1 H2].
  unfold parse_arguments.
  change (negb (length [argv0; join [SPACE] first_books; join [SPACE] second_books] =? 3)%nat)
    with false.
  cbv iota zeta.
  change (nth 1 [argv0; join [SPACE] first_books; join [SPACE] second_books] [])
    with (join [SPACE] first_books).
  change (nth 2 [argv0; join [SPACE] first_books; join [SPACE] second_books] [])
    with (join [SPACE] second_books).
  rewrite (split_ws_join _ H1), (split_ws_join _ H2). reflexivity.
Qed.

Lemma parse_arguments_join_witness :
  parse_arguments [py "vocabfind.py"; join [SPACE] [py "GEN"; py "EXO"]; join [SPACE] []] []
  = ([], Return ([py "GEN"; py "EXO"], [])).
Proof.
  apply (parse_arguments_join (py "vocabfind.py") [py "GEN"; py "EXO"] [] []).
  repeat constructor; try discriminate.
Defined.

Lemma filter_unrecognized_nil (books : list str) :
  List.filter unrecognized books = []
  <-> Forall (fun book => is_Some (USFM_TO_BOOK_NUM !! book)) books.
Proof.
  induction books as [|book books IH]; [split; [constructor|reflexivity]|].
  cbn [List.filter]. unfold unrecognized at 1.
  destruct (USFM_TO_BOOK_NUM !! book) as [num|] eqn:Hnum.
  - rewrite IH. split.
    + intros H. constructor; [rewrite Hnum; eexists; reflexivity|exact H].
    + intros H. apply Forall_cons in H as [_ H]. exact H.
  - split; [discriminate|]. intros H. apply Forall_cons in H as [[num Hn] _].
    rewrite Hnum in Hn. discriminate.
Qed.



(** ** Further properties: the whole run *)

Lemma display_results_text (second_books : list str)
    (first_vocab second_vocab unique_vocab : gset str) (out : str) :
  display_results second_books first_vocab second_vocab unique_vocab out
  = (out ++ statistics_text first_vocab second_vocab unique_vocab
         ++ (if bool_decide (unique_vocab <> ∅)
             then unique_text second_books unique_vocab
             else no_unique_text second_books),
     Return tt).
Proof.
  unfold display_results. rewrite !bind_print.
  destruct (bool_decide (unique_vocab <> ∅)).
  - rewrite !bind_print. cbv zeta. unfold bind at 1. rewrite for_each_print_word.
    unfold statistics_text, unique_text.
    destruct (negb (length (sorted unique_vocab) mod 6 =? 0)%nat).
    + rewrite bind_print. unfold print. rewrite <- !app_assoc. reflexivity.
    + rewrite bind_ret. unfold print. rewrite <- !app_assoc. reflexivity.
  - rewrite !bind_print. unfold print, statistics_text, no_unique_text.
    rewrite <- !app_assoc. reflexivity.
Qed.

(** With recognized abbreviations, [main] reaches the first load. *)
Lemma main_valid_args (lower : str -> str) (fs : str -> file_state)
    (argv0 a1 a2 out : str) :
  Forall (fun book => is_Some (USFM_TO_BOOK_NUM !! book)) (split_ws a1 ++ split_ws a2) ->
  main lower fs [argv0; a1; a2] out
  = bind (load_vocabulary lower fs CORPUS (book_nums (split_ws a1)))
      (fun first_vocab =>
         bind (print (py "Loading vocabulary from second set..."))
           (fun _ =>
              bind (load_vocabulary lower fs CORPUS (book_nums (split_ws a2)))
                (fun second_vocab =>
                   display_results (split_ws a2) first_vocab second_vocab
                     (difference second_vocab first_vocab))))
      (out ++ run_header (split_ws a1) (split_ws a2)).
Proof.
  intros Hall. pose proof Hall as Hboth. apply Forall_app in Hboth as [H1 H2].
  unfold main. rewrite !bind_print.
  unfold parse_arguments. change (negb (length [argv0; a1; a2] =? 3)%nat) with false.
  cbv iota zeta. rewrite bind_ret. change (nth 1 [argv0; a1; a2] []) with a1.
  change (nth 2 [argv0; a1; a2] []) with a2. cbv beta iota.
  rewrite (bind_return _ _ _ _ _ (validate_books_valid _ _ Hall)).
  rewrite (bind_return _ _ _ _ _ (get_book_prefixes_valid _ _ H1)).
  rewrite (bind_return _ _ _ _ _ (get_book_prefixes_valid _ _ H2)).
  rewrite !bind_print. unfold run_header. rewrite <- !app_assoc. reflexivity.
Qed.

Lemma parse_arguments_usage (argv : list str) (out : str) :
  length argv <> 3%nat ->
  parse_arguments argv out
  = (out ++ py "Usage: python vocabfind.py " ++ [DQUOTE] ++ py "BOOK1 BOOK2 ..."
         ++ [DQUOTE; SPACE; DQUOTE] ++ py "BOOK3 BOOK4 ..." ++ [DQUOTE] ++ [LF]
         ++ py "Example: python vocabfind.py " ++ [DQUOTE] ++ py "MAT MRK LUK ACT ROM"
         ++ [DQUOTE; SPACE; DQUOTE] ++ py "GAL PHP" ++ [DQUOTE] ++ [LF],
     SysExit 1).
Proof.
  intros Hlen. unfold parse_arguments.
  rewrite (proj2 (Nat.eqb_neq _ _) Hlen). cbn [negb].
  rewrite !bind_print. unfold sys_exit. rewrite <- !app_assoc. reflexivity.
Qed.

(** The loader returns a set and writes nothing, or exits with status 1. *)
Lemma load_vocabulary_outcome (lower : str -> str) (fs : str -> file_state)
    (filename : str) (book_prefixes : list str) (out : str) :
  (exists vocabulary,
      load_vocabulary lower fs filename book_prefixes out = (out, Return vocabulary))
  \/ (exists out',
         load_vocabulary lower fs filename book_prefixes out = (out', SysExit 1)).
Proof.
  unfold load_vocabulary. destruct (fs filename) as [|e|[|header data]].
  - right. eexists. rewrite !bind_print. reflexivity.
  - right. eexists. rewrite !bind_print. reflexivity.
  - right. eexists. rewrite !bind_print. reflexivity.
  - left. eexists. reflexivity.
Qed.

(** X7: with any number of arguments other than two, [main] writes its
    banner and the two usage lines and exits with status 1; it does not
    look at the corpus file. *)
Theorem main_usage_error (lower : str -> str) (fs : str -> file_state)
    (argv : list str) (out : str) :
  length argv <> 3%nat ->
  main lower fs argv out
  = (out ++ py "Bible Vocabulary Finder" ++ [LF] ++ times 61 50 ++ [LF]
         ++ py "Usage: python vocabfind.py " ++ [DQUOTE] ++ py "BOOK1 BOOK2 ..."
         ++ [DQUOTE; SPACE; DQUOTE] ++ py "BOOK3 BOOK4 ..." ++ [DQUOTE] ++ [LF]
         ++ py "Example: python vocabfind.py " ++ [DQUOTE] ++ py "MAT MRK LUK ACT ROM"
         ++ [DQUOTE; SPACE; DQUOTE] ++ py "GAL PHP" ++ [DQUOTE] ++ [LF],
     SysExit 1).
Proof.
  intros Hlen. unfold main. rewrite !bind_print.
  rewrite (bind_exit _ _ _ _ _ (parse_arguments_usage _ _ Hlen)).
  rewrite <- !app_assoc. reflexivity.
Qed.

Lemma main_usage_error_witness :
  snd (main ascii_lower sample_fs [py "vocabfind.py"; py "GEN"] []) = SysExit 1.
Proof.
  rewrite (main_usage_error ascii_lower sample_fs [py "vocabfind.py"; py "GEN"] []).
  - reflexivity.
  - cbn [length]. lia.
Defined.

(** X8: with recognized abbreviations and no corpus file, [main] writes its
    banner, the two groups and the first progress line, then the two lines
    of the file-not-found error, and exits with status 1; the second load
    is not started. *)
Theorem main_missing_file (lower : str -> str) (fs : str -> file_state)
    (argv0 a1 a2 out : str) :
  Forall (fun book => is_Some (USFM_TO_BOOK_NUM !! book)) (split_ws a1 ++ split_ws a2) ->
  fs CORPUS = Missing ->
  main lower fs [argv0; a1; a2] out
  = (out ++ run_header (split_ws a1) (split_ws a2)
         ++ py "Error: File 'token_OCCB-simplified.tsv' not found." ++ [LF]
         ++ py "Make sure 'token_OCCB-simplified.tsv' is in the current directory."
         ++ [LF],
     SysExit 1).
Proof.
  intros Hall Hfs. rewrite (main_valid_args _ _ _ _ _ _ Hall).
  erewrite bind_exit; [reflexivity|].
  unfold load_vocabulary. rewrite Hfs, !bind_print. unfold sys_exit.
  rewrite <- !app_assoc. reflexivity.
Qed.

Lemma main_missing_file_witness :
  snd (main ascii_lower (fun _ => Missing) [py "vocabfind.py"; py "GEN"; py "MAT"] [])
  = SysExit 1.
Proof.
  rewrite (main_missing_file ascii_lower (fun _ => Missing)
             (py "vocabfind.py") (py "GEN") (py "MAT") []).
  - reflexivity.
  - repeat constructor; vm_compute; eexists; reflexivity.
  - reflexivity.
Defined.

(** X9: with recognized abbreviations and a corpus file whose reading
    fails with an exception of text [e], or that holds no line at all
    (then [e] is empty), [main] writes, after the first progress line,
    the generic read-failure line with [e] and exits with status 1. *)
Theorem main_unreadable_file (lower : str -> str) (fs : str -> file_state)
    (argv0 a1 a2 e out : str) :
  Forall (fun book => is_Some (USFM_TO_BOOK_NUM !! book)) (split_ws a1 ++ split_ws a2) ->
  fs CORPUS = Unreadable e \/ (fs CORPUS = Lines [] /\ e = []) ->
  main lower fs [argv0; a1; a2] out
  = (out ++ run_header (split_ws a1) (split_ws a2)
         ++ py "Error reading file: " ++ e ++ [LF],
     SysExit 1).
Proof.
  intros Hall Hfs. rewrite (main_valid_args _ _ _ _ _ _ Hall).
  erewrite bind_exit; [reflexivity|].
  unfold load_vocabulary. destruct Hfs as [Hfs|[Hfs ->]]; rewrite Hfs, !bind_print;
    unfold sys_exit; rewrite <- !app_assoc; reflexivity.
Qed.

Lemma main_unreadable_file_witness :
  snd (main ascii_lower (fun _ => Unreadable (py "Permission denied"))
         [py "vocabfind.py"; py "GEN"; py "MAT"] [])
  = SysExit 1.
Proof.
  rewrite (main_unreadable_file ascii_lower (fun _ => Unreadable (py "Permission denied"))
             (py "vocabfind.py") (py "GEN") (py "MAT") (py "Permission denied") []).
  - reflexivity.
  - repeat constructor; vm_compute; eexists; reflexivity.
  - left. reflexivity.
Defined.

(** X10: with recognized abbreviations and a corpus file that has a first
    line, [main] returns (exit status 0, also when the difference is
    empty): after the header and the second progress line it writes the
    report for the two vocabularies loaded from the data lines and their
    difference. *)
Theorem main_success (lower : str -> str) (fs : str -> file_state)
    (argv0 a1 a2 header out : str) (data : list str) :
  Forall (fun book => is_Some (USFM_TO_BOOK_NUM !! book)) (split_ws a1 ++ split_ws a2) ->
  fs CORPUS = Lines (header :: data) ->
  let first_vocab := foldl (loop_body lower (book_nums (split_ws a1))) ∅ data in
  let second_vocab := foldl (loop_body lower (book_nums (split_ws a2))) ∅ data in
  let unique_vocab := second_vocab ∖ first_vocab in
  main lower fs [argv0; a1; a2] out
  = (out ++ run_header (split_ws a1) (split_ws a2)
         ++ py "Loading vocabulary from second set..." ++ [LF]
         ++ statistics_text first_vocab second_vocab unique_vocab
         ++ (if bool_decide (unique_vocab <> ∅)
             then unique_text (split_ws a2) unique_vocab
             else no_unique_text (split_ws a2)),
     Return tt)
  /\ exit_status (snd (main lower fs [argv0; a1; a2] out)) = 0%Z.
Proof.
  intros Hall Hfs first_vocab second_vocab unique_vocab.
  assert (main lower fs [argv0; a1; a2] out
          = (out ++ run_header (split_ws a1) (split_ws a2)
                 ++ py "Loading vocabulary from second set..." ++ [LF]
                 ++ statistics_text first_vocab second_vocab unique_vocab
                 ++ (if bool_decide (unique_vocab <> ∅)
                     then unique_text (split_ws a2) unique_vocab
                     else no_unique_text (split_ws a2)),
             Return tt)) as Hmain.
  { rewrite (main_valid_args _ _ _ _ _ _ Hall).
    rewrite (bind_return _ _ _ _ _ (load_vocabulary_lines lower fs _ _ _ _ _ Hfs)).
    rewrite bind_print.
    rewrite (bind_return _ _ _ _ _ (load_vocabulary_lines lower fs _ _ _ _ _ Hfs)).
    rewrite display_results_text. unfold difference.
    fold first_vocab second_vocab unique_vocab.
    rewrite <- !app_assoc. reflexivity. }
  split; [exact Hmain|]. rewrite Hmain. reflexivity.
Qed.

Lemma main_success_witness :
  exit_status (snd (main ascii_lower sample_fs [py "vocabfind.py"; py "GEN"; py "MAT"] []))
  = 0%Z.
Proof.
  refine (proj2 (main_success ascii_lower sample_fs (py "vocabfind.py") (py "GEN") (py "MAT")
                   (tsv_row (List.map py ["id"; "ref"; "text"; "lemma"; "exclude"; "f5"; "f6"; "f7"]%string))
                   [] _ _ _)).
  - repeat constructor; vm_compute; eexists; reflexivity.
  - reflexivity.
Defined.

(** The ways a run ends when writing to standard output succeeds. *)
Lemma main_outcome (lower : str -> str) (fs : str -> file_state)
    (argv : list str) (out : str) :
  snd (main lower fs argv out) = Return tt
  \/ snd (main lower fs argv out) = SysExit 1.
Proof.
  destruct (decide (length argv = 3%nat)) as [Hlen|Hlen].
  2:{ right. unfold main. rewrite !bind_print.
      rewrite (bind_exit _ _ _ _ _ (parse_arguments_usage _ _ Hlen)). reflexivity. }
  destruct argv as [|argv0 [|a1 [|a2 [|]]]]; try discriminate.
  destruct (List.filter unrecognized (split_ws a1 ++ split_ws a2)) as [|b l] eqn:Hf.
  - apply filter_unrecognized_nil in Hf. rewrite (main_valid_args _ _ _ _ _ _ Hf).
    destruct (load_vocabulary_outcome lower fs CORPUS (book_nums (split_ws a1))
                (out ++ run_header (split_ws a1) (split_ws a2)))
      as [[first_vocab H1]|[out1 H1]].
    2:{ right. rewrite (bind_exit _ _ _ _ _ H1). reflexivity. }
    rewrite (bind_return _ _ _ _ _ H1), bind_print.
    match goal with
    | |- context [bind (load_vocabulary lower fs CORPUS ?p) _ ?o] =>
        destruct (load_vocabulary_outcome lower fs CORPUS p o)
          as [[second_vocab H2]|[out2 H2]]
    end.
    + left. rewrite (bind_return _ _ _ _ _ H2), display_results_text. reflexivity.
    + right. rewrite (bind_exit _ _ _ _ _ H2). reflexivity.
  - right. unfold main. rewrite !bind_print. unfold parse_arguments.
    change (negb (length [argv0; a1; a2] =? 3)%nat) with false.
    cbv iota zeta. rewrite bind_ret. change (nth 1 [argv0; a1; a2] []) with a1.
    change (nth 2 [argv0; a1; a2] []) with a2. cbv beta iota.
    erewrite bind_exit; [reflexivity|].
    apply validate_books_invalid. rewrite Hf. discriminate.
Qed.

(** X11: the [KeyError] of the table subscript never ends a run of [main]:
    for every argument vector and every state of the corpus file, the
    outcome of [main] is not a [KeyError], because [validate_books] exits
    before [get_book_prefixes] meets an abbreviation that is not a key. *)
Theorem main_no_key_error (lower : str -> str) (fs : str -> file_state)
    (argv : list str) (out key : str) :
  snd (main lower fs argv out) <> Uncaught (KeyError key).
Proof.
  destruct (main_outcome lower fs argv out) as [H|H]; rewrite H; discriminate.
Qed.

(** ** Further properties: the loader *)

Section LoaderFacts.

Context (lower : str -> str).

(** What a line adds comes from a row of at least eight fields that
    passes every test of the loop. *)
Lemma loop_body_added (book_prefixes : list str) (line w : str) :
  w ∈ loop_body lower book_prefixes ∅ line <->
  let parts := split TAB (strip line) in
  (8 <= length parts)%nat
  /\ w = strip (nth 2 parts [])
  /\ nonempty w = true
  /\ is_punctuation w = false
  /\ (2 <= length (nth 0 parts []))%nat
  /\ take 2 (nth 0 parts []) ∈ book_prefixes
  /\ lower (strip (nth 4 parts [])) <> py "y".
Proof.
  cbv zeta. unfold loop_body. cbv zeta.
  destruct (length (split TAB (strip line)) <? 8)%nat eqn:Hlen.
  { apply Nat.ltb_lt in Hlen. rewrite elem_of_empty. split; [tauto|]. lia. }
  apply Nat.ltb_ge in Hlen.
  assert ((4 <? length (split TAB (strip line)))%nat = true) as ->
    by (apply Nat.ltb_lt; lia).
  set (parts := split TAB (strip line)) in *.
  destruct (bool_decide (lower _ = _)) eqn:Hex.
  { apply bool_decide_eq_true_1 in Hex. rewrite elem_of_empty. tauto. }
  apply bool_decide_eq_false_1 in Hex.
  destruct (2 <=? _)%nat eqn:Hid.
  2:{ apply Nat.leb_gt in Hid. rewrite elem_of_empty. split; [tauto|]. lia. }
  apply Nat.leb_le in Hid.
  destruct (bool_decide (_ ∈ book_prefixes)) eqn:Hin.
  2:{ apply bool_decide_eq_false_1 in Hin. rewrite elem_of_empty. tauto. }
  apply bool_decide_eq_true_1 in Hin.
  destruct (nonempty (strip (nth 2 parts []))) eqn:Hne.
  2:{ cbn [andb]. rewrite elem_of_empty. split; [tauto|].
      intros (_ & -> & Hw & _). congruence. }
  destruct (is_punctuation (strip (nth 2 parts []))) eqn:Hp.
  { cbn [andb negb]. rewrite elem_of_empty. split; [tauto|].
    intros (_ & -> & _ & Hw & _). congruence. }
  cbn [andb negb]. rewrite elem_of_union, elem_of_singleton, elem_of_empty. split.
  - intros [->|[]]. repeat split; assumption.
  - intros (_ & -> & _). left. reflexivity.
Qed.

Lemma foldl_loop_body_elem (book_prefixes : list str) (data : list str) (w : str) :
  w ∈ foldl (loop_body lower book_prefixes) ∅ data
  <-> exists line, line ∈ data /\ w ∈ loop_body lower book_prefixes ∅ line.
Proof.
  destruct (load_vocabulary_elem lower (fun _ => Lines ([] :: data)) [] book_prefixes
              [] data [] eq_refl) as (vocabulary & Hrun & Hiff).
  rewrite (load_vocabulary_lines lower _ _ _ [] data [] eq_refl) in Hrun.
  injection Hrun as <-. apply Hiff.
Qed.

Lemma foldl_loop_body_mono (prefixes1 prefixes2 : list str) (data1 data2 : list str) :
  prefixes1 ⊆ prefixes2 -> data1 ⊆ data2 ->
  foldl (loop_body lower prefixes1) ∅ data1 ⊆ foldl (loop_body lower prefixes2) ∅ data2.
Proof.
  intros Hp Hd w. rewrite !foldl_loop_body_elem. intros (line & Hline & Hw).
  exists line. split; [apply Hd, Hline|].
  apply loop_body_added in Hw. apply loop_body_added. cbv zeta in *.
  destruct Hw as (H1 & H2 & H3 & H4 & H5 & H6 & H7).
  repeat split; try assumption. apply Hp, H6.
Qed.

(** X12: the vocabulary of two groups taken together is the union of
    their vocabularies: on a file with a first line the loader returns,
    for the prefixes of one list followed by those of another, the union
    of the sets it returns for the two lists. *)
Theorem load_vocabulary_prefix_union (fs : str -> file_state) (filename header : str)
    (data prefixes1 prefixes2 : list str) (out : str) :
  fs filename = Lines (header :: data) ->
  exists vocabulary1 vocabulary2,
    load_vocabulary lower fs filename prefixes1 out = (out, Return vocabulary1)
    /\ load_vocabulary lower fs filename prefixes2 out = (out, Return vocabulary2)
    /\ load_vocabulary lower fs filename (prefixes1 ++ prefixes2) out
       = (out, Return (vocabulary1 ∪ vocabulary2)).
Proof.
  intros Hfs. rewrite !(load_vocabulary_lines lower fs _ _ _ _ _ Hfs).
  do 2 eexists. split; [reflexivity|]. split; [reflexivity|].
  f_equal. f_equal. apply set_eq. intros w.
  rewrite elem_of_union, !foldl_loop_body_elem. split.
  - intros (line & Hline & Hw). apply loop_body_added in Hw. cbv zeta in Hw.
    destruct Hw as (H1 & H2 & H3 & H4 & H5 & H6 & H7).
    apply elem_of_app in H6 as [H6|H6]; [left|right]; exists line;
      (split; [exact Hline|]); apply loop_body_added; cbv zeta;
      repeat split; assumption.
  - intros [(line & Hline & Hw)|(line & Hline & Hw)]; exists line;
      (split; [exact Hline|]); apply loop_body_added in Hw; apply loop_body_added;
      cbv zeta in *; destruct Hw as (H1 & H2 & H3 & H4 & H5 & H6 & H7);
      repeat split; try assumption; apply elem_of_app; [left|right]; exact H6.
Qed.

(** X13: the vocabulary grows with the prefixes and depends on them as a
    set only: when each prefix of one list occurs in another, the set
    returned for the first is included in the set returned for the second,
    so two lists with the same elements (in any order, repeated or not)
    give the same set. *)
Theorem load_vocabulary_prefix_mono (fs : str -> file_state) (filename : str)
    (prefixes1 prefixes2 : list str) (out out1 out2 : str)
    (vocabulary1 vocabulary2 : gset str) :
  prefixes1 ⊆ prefixes2 ->
  load_vocabulary lower fs filename prefixes1 out = (out1, Return vocabulary1) ->
  load_vocabulary lower fs filename prefixes2 out = (out2, Return vocabulary2) ->
  vocabulary1 ⊆ vocabulary2
  /\ (prefixes2 ⊆ prefixes1 -> vocabulary1 = vocabulary2).
Proof.
  intros Hsub. unfold load_vocabulary.
  destruct (fs filename) as [|e|[|header data]];
    try (rewrite !bind_print; discriminate).
  intros H1 H2. injection H1 as _ <-. injection H2 as _ <-.
  split; [apply foldl_loop_body_mono; [exact Hsub|reflexivity]|].
  intros Hsup. apply set_eq. intros w. split.
  - apply foldl_loop_body_mono; [exact Hsub|reflexivity].
  - apply foldl_loop_body_mono; [exact Hsup|reflexivity].
Qed.

(** X14: the vocabulary depends only on which data lines the file holds:
    the first line never counts, and when each data line of one file
    occurs among the data lines of another, the set loaded from the first
    is included in the set loaded from the second; so files with the same
    data lines, in any order and however often repeated, give the same
    set. *)
Theorem load_vocabulary_lines_mono (fs1 fs2 : str -> file_state) (filename : str)
    (header1 header2 : str) (data1 data2 : list str) (book_prefixes : list str)
    (out : str) :
  fs1 filename = Lines (header1 :: data1) ->
  fs2 filename = Lines (header2 :: data2) ->
  data1 ⊆ data2 ->
  exists vocabulary1 vocabulary2,
    load_vocabulary lower fs1 filename book_prefixes out = (out, Return vocabulary1)
    /\ load_vocabulary lower fs2 filename book_prefixes out = (out, Return vocabulary2)
    /\ vocabulary1 ⊆ vocabulary2
    /\ (data2 ⊆ data1 -> vocabulary1 = vocabulary2).
Proof.
  intros H1 H2 Hsub.
  rewrite (load_vocabulary_lines lower fs1 _ _ _ _ _ H1).
  rewrite (load_vocabulary_lines lower fs2 _ _ _ _ _ H2).
  do 2 eexists. split; [reflexivity|]. split; [reflexivity|].
  split; [apply foldl_loop_body_mono; [reflexivity|exact Hsub]|].
  intros Hsup. apply set_eq. intros w. split.
  - apply foldl_loop_body_mono; [reflexivity|exact Hsub].
  - apply foldl_loop_body_mono; [reflexivity|exact Hsup].
Qed.

(** X15: without prefixes nothing is loaded: on a file with a first line
    the loader returns the empty set for the empty list of prefixes,
    whatever the data lines hold. *)
Theorem load_vocabulary_no_prefixes (fs : str -> file_state) (filename header : str)
    (data : list str) (out : str) :
  fs filename = Lines (header :: data) ->
  load_vocabulary lower fs filename [] out = (out, Return ∅).
Proof.
  intros Hfs. rewrite (load_vocabulary_lines lower fs _ _ _ _ _ Hfs).
  f_equal. f_equal. apply set_eq. intros w. rewrite foldl_loop_body_elem, elem_of_empty.
  split; [|tauto]. intros (line & _ & Hw). apply loop_body_added in Hw.
  cbv zeta in Hw. destruct Hw as (_ & _ & _ & _ & _ & Hin & _). inversion Hin.
Qed.

(** X16: whenever the loader returns a set, none of its elements holds a
    tab and the punctuation test holds of none of them; so no element is
    one of the punctuation glyphs. *)
Theorem vocabulary_words_clean (fs : str -> file_state) (filename : str)
    (book_prefixes : list str) (out out' : str) (vocabulary : gset str) :
  load_vocabulary lower fs filename book_prefixes out = (out', Return vocabulary) ->
  forall w, w ∈ vocabulary ->
    (TAB ∉ w)
    /\ is_punctuation w = false
    /\ (forall c, c ∈ PUNCTUATION -> w <> [c]).
Proof.
  unfold load_vocabulary.
  destruct (fs filename) as [|e|[|header data]];
    try (rewrite !bind_print; discriminate).
  intros Hret w Hw. injection Hret as _ <-.
  apply foldl_loop_body_elem in Hw as (line & _ & Hw).
  apply loop_body_added in Hw. cbv zeta in Hw.
  destruct Hw as (Hlen & Hw & _ & Hp & _).
  assert (TAB ∉ w) as Htab.
  { pose proof (split_by_fields_free (N.eqb TAB) (strip line)) as Hall.
    rewrite Forall_forall in Hall.
    assert (nth 2 (split TAB (strip line)) [] ∈ split TAB (strip line)) as Hin
      by (apply list_elem_of_In, nth_In; lia).
    specialize (Hall _ Hin). rewrite Forall_forall in Hall.
    destruct (strip_infix (nth 2 (split TAB (strip line)) [])) as (pre & suf & Heq).
    intros Ht. rewrite Hw in Ht.
    assert (TAB ∈ nth 2 (split TAB (strip line)) []) as Ht'
      by (rewrite Heq; apply elem_of_app; right; apply elem_of_app; left; exact Ht).
    specialize (Hall _ Ht'). rewrite N.eqb_refl in Hall. discriminate. }
  split; [exact Htab|]. split; [exact Hp|].
  intros c Hc ->. unfold is_punctuation in Hp.
  apply list_elem_of_split in Hc as (pre & suf & Hc).
  assert (contains PUNCTUATION [c] = true) as Hyes
    by (apply contains_spec; exists pre, suf; exact Hc).
  congruence.
Qed.

End LoaderFacts.

Lemma load_vocabulary_prefix_union_witness :
  load_vocabulary ascii_lower sample_fs CORPUS ([py "01"] ++ [py "40"]) []
  = ([], Return ({[ py "the" ]} ∪ ({[ py "the" ]} ∪ {[ py "kingdom" ]}))).
Proof.
  destruct (load_vocabulary_prefix_union ascii_lower sample_fs CORPUS
              (tsv_row (List.map py ["id"; "ref"; "text"; "lemma"; "exclude"; "f5"; "f6"; "f7"]%string))
              (tail sample_corpus) [py "01"] [py "40"] [] eq_refl)
    as (vocabulary1 & vocabulary2 & H1 & H2 & Hboth).
  rewrite Hboth. f_equal. f_equal.
  assert (load_vocabulary ascii_lower sample_fs CORPUS [py "01"] []
          = ([], Return {[ py "the" ]})) as E1 by (vm_compute; reflexivity).
  assert (load_vocabulary ascii_lower sample_fs CORPUS [py "40"] []
          = ([], Return ({[ py "the" ]} ∪ {[ py "kingdom" ]}))) as E2
    by (vm_compute; reflexivity).
  rewrite E1 in H1. rewrite E2 in H2.
  injection H1 as <-. injection H2 as <-. reflexivity.
Defined.

Lemma load_vocabulary_prefix_mono_witness :
  ({[ py "the" ]} : gset str) ⊆ {[ py "the" ]} ∪ {[ py "kingdom" ]}.
Proof.
  refine (proj1 (load_vocabulary_prefix_mono ascii_lower sample_fs CORPUS
                   [py "01"] [py "01"; py "40"] [] [] []
                   {[ py "the" ]} ({[ py "the" ]} ∪ {[ py "kingdom" ]}) _ _ _)).
  - intros p Hp. apply elem_of_cons. left.
    apply list_elem_of_singleton in Hp. exact Hp.
  - vm_compute. reflexivity.
  - vm_compute. reflexivity.
Defined.

Lemma load_vocabulary_lines_mono_witness :
  exists vocabulary1 vocabulary2,
    load_vocabulary ascii_lower (fun _ => Lines (py "h" :: tail sample_corpus))
      CORPUS [py "40"] [] = ([], Return vocabulary1)
    /\ load_vocabulary ascii_lower sample_fs CORPUS [py "40"] [] = ([], Return vocabulary2)
    /\ vocabulary1 ⊆ vocabulary2
    /\ (tail sample_corpus ⊆ tail sample_corpus -> vocabulary1 = vocabulary2).
Proof.
  apply (load_vocabulary_lines_mono ascii_lower (fun _ => Lines (py "h" :: tail sample_corpus))
           sample_fs CORPUS (py "h")
           (tsv_row (List.map py ["id"; "ref"; "text"; "lemma"; "exclude"; "f5"; "f6"; "f7"]%string))
           (tail sample_corpus) (tail sample_corpus) [py "40"] []).
  - reflexivity.
  - reflexivity.
  - intros l Hl. exact Hl.
Defined.

Lemma load_vocabulary_no_prefixes_witness :
  load_vocabulary ascii_lower sample_fs CORPUS [] [] = ([], Return ∅).
Proof.
  apply (load_vocabulary_no_prefixes ascii_lower sample_fs CORPUS
           (tsv_row (List.map py ["id"; "ref"; "text"; "lemma"; "exclude"; "f5"; "f6"; "f7"]%string))
           (tail sample_corpus) []).
  reflexivity.
Defined.

Lemma vocabulary_words_clean_witness :
  (TAB ∉ py "kingdom")
  /\ is_punctuation (py "kingdom") = false
  /\ (forall c, c ∈ PUNCTUATION -> py "kingdom" <> [c]).
Proof.
  apply (vocabulary_words_clean ascii_lower sample_fs CORPUS [py "40"] [] []
           ({[ py "the" ]} ∪ {[ py "kingdom" ]})).
  - vm_compute. reflexivity.
  - apply elem_of_union. right. apply elem_of_singleton. reflexivity.
Defined.

(** ** Further properties: the report and the comparison *)

Lemma book_nums_mono (books1 books2 : list str) :
  books1 ⊆ books2 -> book_nums books1 ⊆ book_nums books2.
Proof.
  intros Hsub num Hnum. unfold book_nums in *.
  apply list_elem_of_omap in Hnum as (book & Hb & Hl).
  apply list_elem_of_omap. exists book. split; [apply Hsub, Hb|exact Hl].
Qed.

Lemma main_report (lower : str -> str) (fs : str -> file_state)
    (argv0 a1 a2 header out : str) (data : list str) :
  Forall (fun book => is_Some (USFM_TO_BOOK_NUM !! book)) (split_ws a1 ++ split_ws a2) ->
  fs CORPUS = Lines (header :: data) ->
  main lower fs [argv0; a1; a2] out
  = display_results (split_ws a2)
      (foldl (loop_body lower (book_nums (split_ws a1))) ∅ data)
      (foldl (loop_body lower (book_nums (split_ws a2))) ∅ data)
      (difference (foldl (loop_body lower (book_nums (split_ws a2))) ∅ data)
         (foldl (loop_body lower (book_nums (split_ws a1))) ∅ data))
      ((out ++ run_header (split_ws a1) (split_ws a2))
         ++ py "Loading vocabulary from second set..." ++ [LF]).
Proof.
  intros Hall Hfs. rewrite (main_valid_args _ _ _ _ _ _ Hall).
  rewrite (bind_return _ _ _ _ _ (load_vocabulary_lines lower fs _ _ _ _ _ Hfs)).
  rewrite bind_print.
  rewrite (bind_return _ _ _ _ _ (load_vocabulary_lines lower fs _ _ _ _ _ Hfs)).
  reflexivity.
Qed.

(** X17: comparing a group with a group that includes it finds nothing:
    when the abbreviations are recognized, each abbreviation of the second
    argument also occurs in the first, and the corpus file has a first
    line, the difference is empty and [main] ends its report with the two
    lines saying that there is no unique vocabulary. *)
Theorem main_included_group (lower : str -> str) (fs : str -> file_state)
    (argv0 a1 a2 header out : str) (data : list str) :
  Forall (fun book => is_Some (USFM_TO_BOOK_NUM !! book)) (split_ws a1 ++ split_ws a2) ->
  fs CORPUS = Lines (header :: data) ->
  split_ws a2 ⊆ split_ws a1 ->
  let first_vocab := foldl (loop_body lower (book_nums (split_ws a1))) ∅ data in
  let second_vocab := foldl (loop_body lower (book_nums (split_ws a2))) ∅ data in
  difference second_vocab first_vocab = ∅
  /\ main lower fs [argv0; a1; a2] out
     = (out ++ run_header (split_ws a1) (split_ws a2)
            ++ py "Loading vocabulary from second set..." ++ [LF]
            ++ statistics_text first_vocab second_vocab ∅
            ++ no_unique_text (split_ws a2),
        Return tt).
Proof.
  intros Hall Hfs Hsub first_vocab second_vocab.
  assert (difference second_vocab first_vocab = ∅) as Hempty.
  { unfold difference. apply set_eq. intros w.
    rewrite elem_of_difference, elem_of_empty. split; [|tauto].
    intros [Hw Hnot]. apply Hnot.
    revert Hw. apply (foldl_loop_body_mono lower); [|reflexivity].
    apply book_nums_mono, Hsub. }
  split; [exact Hempty|].
  rewrite (main_report _ _ _ _ _ _ _ _ Hall Hfs).
  fold first_vocab second_vocab. rewrite Hempty, display_results_text.
  rewrite bool_decide_eq_false_2 by (intros H; apply H; reflexivity).
  rewrite <- !app_assoc. reflexivity.
Qed.

Lemma main_included_group_witness :
  snd (main ascii_lower sample_fs [py "vocabfind.py"; py "GEN MAT"; py "MAT"] [])
  = Return tt.
Proof.
  assert (Forall (fun book => is_Some (USFM_TO_BOOK_NUM !! book))
            (split_ws (py "GEN MAT") ++ split_ws (py "MAT"))) as Hall
    by (repeat constructor; vm_compute; eexists; reflexivity).
  assert (split_ws (py "MAT") ⊆ split_ws (py "GEN MAT")) as Hsub.
  { vm_compute. intros b Hb. apply list_elem_of_singleton in Hb as ->.
    apply list_elem_of_further, list_elem_of_here. }
  rewrite (proj2 (main_included_group ascii_lower sample_fs (py "vocabfind.py")
                    (py "GEN MAT") (py "MAT")
                    (tsv_row (List.map py ["id"; "ref"; "text"; "lemma"; "exclude"; "f5"; "f6"; "f7"]%string))
                    [] (tail sample_corpus) Hall eq_refl Hsub)).
  reflexivity.
Defined.

Lemma concat_contains (l : list str) (x : str) :
  x ∈ l -> exists pre suf, concat l = pre ++ x ++ suf.
Proof.
  intros Hx. apply list_elem_of_split in Hx as (l1 & l2 & ->).
  exists (concat l1), (concat l2). rewrite concat_app. reflexivity.
Qed.

Lemma enumerate_elem {A} (l : list A) (x : A) (start : nat) :
  x ∈ l -> exists i, (i, x) ∈ enumerate l start.
Proof.
  intros Hx. revert start. induction Hx as [x l|x y l _ IH]; intros start.
  - exists start. rewrite enumerate_cons. apply list_elem_of_here.
  - destruct (IH (S start)) as (i & Hi). exists i.
    rewrite enumerate_cons. apply list_elem_of_further, Hi.
Qed.

(** X18: no word is dropped or cut: each word of the difference occurs in
    full in what [display_results] writes, however long the word is. *)
Theorem display_results_shows_words (second_books : list str)
    (first_vocab second_vocab unique_vocab : gset str) (out w : str) :
  w ∈ unique_vocab ->
  contains
    (fst (display_results second_books first_vocab second_vocab unique_vocab out)) w
  = true.
Proof.
  intros Hw. rewrite display_results_text. cbn [fst].
  rewrite bool_decide_eq_true_2
    by (intros Hempty; rewrite Hempty in Hw; apply not_elem_of_empty in Hw; exact Hw).
  apply contains_spec.
  destruct (sorted_spec unique_vocab) as (_ & _ & Helem & _).
  apply Helem in Hw.
  destruct (enumerate_elem _ _ 1%nat Hw) as (i & Hi).
  apply list_elem_of_In, (in_map word_text), list_elem_of_In in Hi.
  apply concat_contains in Hi as (pre & suf & Hcat).
  unfold unique_text. rewrite Hcat. unfold word_text at 1. cbn [fst snd]. unfold ljust.
  eexists (out ++ statistics_text first_vocab second_vocab unique_vocab
               ++ [LF] ++ py "Unique vocabulary found in " ++ join [SPACE] second_books
               ++ py ":" ++ [LF] ++ times 45 40 ++ [LF] ++ pre), _.
  rewrite <- !app_assoc. reflexivity.
Qed.

Lemma display_results_shows_words_witness :
  contains
    (fst (display_results [py "MAT"] ∅ {[ py "abcdefghijkl" ]} {[ py "abcdefghijkl" ]} []))
    (py "abcdefghijkl")
  = true.
Proof.
  apply (display_results_shows_words [py "MAT"] ∅ {[ py "abcdefghijkl" ]}
           {[ py "abcdefghijkl" ]} [] (py "abcdefghijkl")).
  apply elem_of_singleton. reflexivity.
Defined.
